(** * Lemur certificate service: a shallow embedding and its properties

    The development follows the two Python modules of the repository,
    [lemur/exceptions.py] and [lemur/certificates/service.py].  Python
    dictionaries are finite maps, objects are records, a function that can
    raise returns a [Result], and code that touches the database session,
    the key generator or the logger runs in a state-and-exception monad over
    a [World]. *)

From Stdlib Require Import ZArith String Ascii.
From stdpp Require Import gmap strings list fin_maps sorting.

Open Scope string_scope.
Open Scope list_scope.

(** ** lemur/exceptions.py *)

Module exceptions.

(** The classes of the module, with the builtin root [Exception]. *)
Inductive cls :=
| Exception
| LemurException
| DuplicateError
| InvalidListener
| InvalidDistribution
| TokenExchangeFailed
| AttrNotFound
| InvalidConfiguration
| InvalidAuthority
| UnknownProvider
| IssuerPaymentRequired.

#[global] Instance cls_eq_dec : EqDecision cls.
Proof. solve_decision. Defined.

(** The base named in each [class C(B):] statement. *)
Definition base (c : cls) : option cls :=
  match c with
  | Exception => None
  | LemurException => Some Exception
  | DuplicateError => Some LemurException
  | InvalidListener => Some LemurException
  | InvalidDistribution => Some LemurException
  | TokenExchangeFailed => Some LemurException
  | AttrNotFound => Some LemurException
  | InvalidConfiguration => Some Exception
  | InvalidAuthority => Some Exception
  | UnknownProvider => Some Exception
  | IssuerPaymentRequired => Some LemurException
  end.

(** The statements that occur in the bodies of the [__init__] methods. *)
Inductive stmt :=
| LogException                       (* current_app.logger.exception(self) *)
| SetAttr (name : string) (arg : nat) (* self.name = <arg-th parameter> *)
| SuperInit.                         (* super().__init__() *)

(** An [__init__] method: the number of its positional parameters after
    [self], [None] when it takes any number of them, and its body. *)
Record init_method := {
  params : option nat;
  body : list stmt
}.

(** The [__init__] a class defines in its own body, if it defines one. *)
Definition own_init (c : cls) : option init_method :=
  match c with
  | LemurException =>
      Some {| params := None; body := [LogException] |}
  | DuplicateError =>
      Some {| params := Some 1; body := [SetAttr "key" 0] |}
  | InvalidDistribution =>
      Some {| params := Some 1; body := [SetAttr "field" 0] |}
  | TokenExchangeFailed =>
      Some {| params := Some 2;
              body := [SetAttr "error" 0; SetAttr "description" 1] |}
  | AttrNotFound =>
      Some {| params := Some 1; body := [SetAttr "field" 0] |}
  | IssuerPaymentRequired =>
      Some {| params := Some 1; body := [SetAttr "message" 0; SuperInit] |}
  | Exception | InvalidListener | InvalidConfiguration
  | InvalidAuthority | UnknownProvider => None
  end.

(** An exception object: its class and the attributes set on it so far. *)
Record instance := Instance {
  inst_class : cls;
  inst_attrs : list (string * string)
}.

#[global] Instance instance_eq_dec : EqDecision instance.
Proof. solve_decision. Defined.

(** The application log: one entry per [logger.exception] call, holding the
    object as it was when logged. *)
Definition logger := list instance.

(** Method resolution order: the class, then its bases up to [Exception].
    The hierarchy is three classes deep. *)
Fixpoint mro_from (depth : nat) (c : cls) : list cls :=
  match depth with
  | O => []
  | S d => c :: match base c with
                | Some b => mro_from d b
                | None => []
                end
  end.

Definition mro (c : cls) : list cls := mro_from 3 c.

(** Whether a call with [args] fits the parameters of a method. *)
Definition accepts (m : init_method) (args : list string) : bool :=
  match params m with
  | Some n => Nat.eqb (length args) n
  | None => true
  end.

Definition exec_stmt (super : instance * logger -> option (instance * logger))
    (args : list string) (s : stmt) (st : instance * logger)
    : option (instance * logger) :=
  match s with
  | LogException => Some (st.1, st.2 ++ [st.1])
  | SetAttr name i =>
      arg ← args !! i;
      Some (Instance (inst_class st.1) (inst_attrs st.1 ++ [(name, arg)]),
            st.2)
  | SuperInit => super st
  end.

(** Runs the first [__init__] found along [chain]; [super().__init__()]
    continues from the rest of the chain, with no arguments.  The builtin
    [Exception.__init__] at the end of every chain takes any arguments and
    has no effect on attributes or log.  [None] stands for the [TypeError]
    of a call with the wrong number of arguments. *)
Fixpoint run_init (chain : list cls) (args : list string)
    (st : instance * logger) : option (instance * logger) :=
  match chain with
  | [] => Some st
  | c :: rest =>
      match own_init c with
      | None => run_init rest args st
      | Some m =>
          if accepts m args then
            foldl (fun acc s => acc ≫= exec_stmt (run_init rest []) args s)
                  (Some st) (body m)
          else None
      end
  end.

(** Calling the class: allocate the object and run its initialiser on the
    positional arguments. *)
Definition construct (c : cls) (args : list string) (log : logger)
    : option (instance * logger) :=
  run_init (mro c) args (Instance c [], log).

End exceptions.

(** ** Python values, exceptions and results *)

Inductive PyExn :=
| KeyError (key : string)          (* d[key] or d.pop(key) on a missing key *)
| IndexError                       (* l[i] past the end of a list *)
| AttributeError (attr : string)   (* None.attr, or a type without attr *)
| TypeError
| OverflowError                    (* a date outside the range of datetime *)
| Lemur (e : exceptions.instance). (* an exception of lemur/exceptions.py *)

#[global] Instance PyExn_eq_dec : EqDecision PyExn.
Proof. solve_decision. Defined.

Inductive Result (A : Type) :=
| Ok (a : A)
| Raise (e : PyExn).

Arguments Ok {A} a.
Arguments Raise {A} e.

(** Scalars as they arrive in the argument dictionaries of [render] and
    [stats]. *)
Inductive PyVal :=
| VNone
| VBool (b : bool)
| VInt (z : Z)
| VStr (s : string)
| VDate (day : Z)    (* a date formatted 'YYYY-MM-DD', as its day number *)
| VTime (at_ : Z).   (* a datetime, as its timestamp *)

#[global] Instance PyVal_eq_dec : EqDecision PyVal.
Proof. solve_decision. Defined.

(** Python truthiness, as tested by [if x:]. *)
Definition truthy (v : PyVal) : bool :=
  match v with
  | VNone => false
  | VBool b => b
  | VInt z => negb (z =? 0)%Z
  | VStr s => negb (String.eqb s "")
  | VDate _ => true
  | VTime _ => true
  end.

(** [s.split(sep)] for a one-character separator: always at least one
    piece, and an empty piece on either side of a separator at the edge. *)
Fixpoint split (sep : ascii) (s : string) : list string :=
  match s with
  | EmptyString => [EmptyString]
  | String c s' =>
      if Ascii.eqb c sep then EmptyString :: split sep s'
      else match split sep s' with
           | t :: ts => String c t :: ts
           | [] => [String c EmptyString]
           end
  end.

(** [sub in s] on strings: [sub] occurs somewhere in [s]. *)
Fixpoint contains (sub s : string) : bool :=
  String.prefix sub s ||
  match s with
  | EmptyString => false
  | String _ s' => contains sub s'
  end.

(** ** Dates and timestamps

    A date is held as the number of its day, counted from 1970-01-01, and
    a timestamp as a number of seconds, counted from the start of that
    day.  Python's [datetime] holds the years 1 to 9999, and date
    arithmetic that leaves them raises [OverflowError]. *)

Definition min_day : Z := -719162.   (* 0001-01-01 *)
Definition max_day : Z := 2932896.   (* 9999-12-31 *)

Definition date_exists (day : Z) : bool :=
  ((min_day <=? day) && (day <=? max_day))%Z.

(** The timestamp a date-only string 'YYYY-MM-DD' stands for when a
    timestamp column is compared with it: the start of that day. *)
Definition midnight (day : Z) : Z := (86400 * day)%Z.

(** ** The data model (lemur.*.models) *)

Record Authority := {
  authority_id : nat;
  authority_name : string;
  plugin_name : string
}.

Record User := {
  user_id : nat;
  email : string;
  certificates : list nat   (* ids of the certificates appended to the user *)
}.

(** ** The cryptography collaborator, symbolically

    Key generation, signing and PEM encoding are performed by the
    [cryptography] package.  The model records how they are parameterised
    and what they are applied to. *)

Inductive ObjectIdentifier :=
| OID_COMMON_NAME
| OID_ORGANIZATION_NAME
| OID_ORGANIZATIONAL_UNIT_NAME
| OID_COUNTRY_NAME
| OID_STATE_OR_PROVINCE_NAME
| OID_LOCALITY_NAME.

Record NameAttribute := {
  oid : ObjectIdentifier;
  value : string
}.

Inductive GeneralName :=
| DNSName (v : string).

Inductive ExtensionType :=
| BasicConstraints (ca : bool) (path_length : option nat)
| SubjectAlternativeName (general_names : list GeneralName).

Record Extension := {
  ext_value : ExtensionType;
  critical : bool
}.

Record RSAPrivateKey := {
  key_serial : nat;        (* which call of the generator produced it *)
  public_exponent : Z;
  key_size : Z
}.

Inductive HashAlgorithm := SHA256.

Record CertificateSigningRequestBuilder := {
  subject_name : list NameAttribute;
  extensions : list Extension
}.

Record CertificateSigningRequest := {
  csr_subject : list NameAttribute;
  csr_extensions : list Extension;
  csr_key : RSAPrivateKey;
  csr_hash : HashAlgorithm
}.

Inductive PrivateFormat := TraditionalOpenSSL | PKCS8.

(** PEM encodings of a private key and of a request. *)
Record KeyPem := {
  pem_key : RSAPrivateKey;
  pem_format : PrivateFormat;
  pem_encrypted : bool
}.

Record CsrPem := {
  pem_request : CertificateSigningRequest
}.

Definition add_extension (b : CertificateSigningRequestBuilder)
    (e : ExtensionType) (crit : bool) : CertificateSigningRequestBuilder :=
  {| subject_name := subject_name b;
     extensions := extensions b ++ [{| ext_value := e; critical := crit |}] |}.

Definition sign (b : CertificateSigningRequestBuilder) (k : RSAPrivateKey)
    (h : HashAlgorithm) : CertificateSigningRequest :=
  {| csr_subject := subject_name b;
     csr_extensions := extensions b;
     csr_key := k;
     csr_hash := h |}.

(** ** Certificates *)

Record Certificate := {
  cert_id : option nat;             (* None until the row is first written *)
  cert_body : string;
  cert_private_key : option KeyPem;
  cert_chain : option string;
  cert_issuer : string;
  cert_not_after : Z;               (* a timestamp *)
  cert_owner : option string;
  cert_description : option string;
  cert_active : bool;
  cert_user : option nat;           (* id of the requesting user *)
  cert_authority : option Authority;
  cert_destinations : list nat;     (* ids of the associated destinations *)
  cert_notifications : list nat;    (* ids of the associated notifications *)
  cert_elb_listeners : list nat
}.

(** Attribute assignments [cert.x = v]. *)
Definition set_id (v : option nat) (c : Certificate) : Certificate :=
  {| cert_id := v; cert_body := cert_body c;
     cert_private_key := cert_private_key c; cert_chain := cert_chain c;
     cert_issuer := cert_issuer c; cert_not_after := cert_not_after c;
     cert_owner := cert_owner c; cert_description := cert_description c;
     cert_active := cert_active c; cert_user := cert_user c;
     cert_authority := cert_authority c;
     cert_destinations := cert_destinations c;
     cert_notifications := cert_notifications c;
     cert_elb_listeners := cert_elb_listeners c |}.

Definition set_owner (v : option string) (c : Certificate) : Certificate :=
  {| cert_id := cert_id c; cert_body := cert_body c;
     cert_private_key := cert_private_key c; cert_chain := cert_chain c;
     cert_issuer := cert_issuer c; cert_not_after := cert_not_after c;
     cert_owner := v; cert_description := cert_description c;
     cert_active := cert_active c; cert_user := cert_user c;
     cert_authority := cert_authority c;
     cert_destinations := cert_destinations c;
     cert_notifications := cert_notifications c;
     cert_elb_listeners := cert_elb_listeners c |}.

Definition set_description (v : option string) (c : Certificate)
    : Certificate :=
  {| cert_id := cert_id c; cert_body := cert_body c;
     cert_private_key := cert_private_key c; cert_chain := cert_chain c;
     cert_issuer := cert_issuer c; cert_not_after := cert_not_after c;
     cert_owner := cert_owner c; cert_description := v;
     cert_active := cert_active c; cert_user := cert_user c;
     cert_authority := cert_authority c;
     cert_destinations := cert_destinations c;
     cert_notifications := cert_notifications c;
     cert_elb_listeners := cert_elb_listeners c |}.

Definition set_active (v : bool) (c : Certificate) : Certificate :=
  {| cert_id := cert_id c; cert_body := cert_body c;
     cert_private_key := cert_private_key c; cert_chain := cert_chain c;
     cert_issuer := cert_issuer c; cert_not_after := cert_not_after c;
     cert_owner := cert_owner c; cert_description := cert_description c;
     cert_active := v; cert_user := cert_user c;
     cert_authority := cert_authority c;
     cert_destinations := cert_destinations c;
     cert_notifications := cert_notifications c;
     cert_elb_listeners := cert_elb_listeners c |}.

Definition set_user (v : option nat) (c : Certificate) : Certificate :=
  {| cert_id := cert_id c; cert_body := cert_body c;
     cert_private_key := cert_private_key c; cert_chain := cert_chain c;
     cert_issuer := cert_issuer c; cert_not_after := cert_not_after c;
     cert_owner := cert_owner c; cert_description := cert_description c;
     cert_active := cert_active c; cert_user := v;
     cert_authority := cert_authority c;
     cert_destinations := cert_destinations c;
     cert_notifications := cert_notifications c;
     cert_elb_listeners := cert_elb_listeners c |}.

Definition set_authority (v : option Authority) (c : Certificate)
    : Certificate :=
  {| cert_id := cert_id c; cert_body := cert_body c;
     cert_private_key := cert_private_key c; cert_chain := cert_chain c;
     cert_issuer := cert_issuer c; cert_not_after := cert_not_after c;
     cert_owner := cert_owner c; cert_description := cert_description c;
     cert_active := cert_active c; cert_user := cert_user c;
     cert_authority := v;
     cert_destinations := cert_destinations c;
     cert_notifications := cert_notifications c;
     cert_elb_listeners := cert_elb_listeners c |}.

Definition set_destinations (v : list nat) (c : Certificate) : Certificate :=
  {| cert_id := cert_id c; cert_body := cert_body c;
     cert_private_key := cert_private_key c; cert_chain := cert_chain c;
     cert_issuer := cert_issuer c; cert_not_after := cert_not_after c;
     cert_owner := cert_owner c; cert_description := cert_description c;
     cert_active := cert_active c; cert_user := cert_user c;
     cert_authority := cert_authority c;
     cert_destinations := v;
     cert_notifications := cert_notifications c;
     cert_elb_listeners := cert_elb_listeners c |}.

Definition set_notifications (v : list nat) (c : Certificate) : Certificate :=
  {| cert_id := cert_id c; cert_body := cert_body c;
     cert_private_key := cert_private_key c; cert_chain := cert_chain c;
     cert_issuer := cert_issuer c; cert_not_after := cert_not_after c;
     cert_owner := cert_owner c; cert_description := cert_description c;
     cert_active := cert_active c; cert_user := cert_user c;
     cert_authority := cert_authority c;
     cert_destinations := cert_destinations c;
     cert_notifications := v;
     cert_elb_listeners := cert_elb_listeners c |}.

(** ** Issuance options

    The dictionary passed to [create], [mint] and [create_csr].  Its
    string-valued entries are a finite map; the entries holding objects are
    typed fields, [None] when the key is absent. *)

(** One requested alternative name: [{'nameType': ..., 'value': ...}].
    The record holds a name tagged with its type, as the specification
    describes the entries; a dictionary lacking one of the two keys, on
    which line 293 or 294 would raise [KeyError], is no value of this
    type. *)
Record AltName := {
  nameType : string;
  name_value : string
}.

(** The value stored under an extension kind: [{'names': [...]}], with
    the key ['names'] that line 292 reads always there. *)
Record ExtensionRequest := {
  names : list AltName
}.

Record Options := {
  opt_fields : gmap string string;
  opt_authority : option Authority;                      (* 'authority' *)
  opt_extensions : option (gmap string ExtensionRequest); (* 'extensions' *)
  opt_destinations : option (list nat);                  (* 'destinations' *)
  opt_notifications : option (list nat)                  (* 'notifications' *)
}.

(** [options[key] = v] for a string-valued entry. *)
Definition set_field (key v : string) (o : Options) : Options :=
  {| opt_fields := <[key := v]> (opt_fields o);
     opt_authority := opt_authority o;
     opt_extensions := opt_extensions o;
     opt_destinations := opt_destinations o;
     opt_notifications := opt_notifications o |}.

(** An issuer plugin: the signing call either returns the certificate body
    and chain or raises.  The exception is the object the plugin raises,
    built by the plugin: what building it writes to the log is the
    plugin's doing and is not followed here. *)
Record IssuerPlugin := {
  create_certificate : CsrPem -> Options -> Result (string * string)
}.

(** ** The world the service runs in *)

Record World := {
  (* committed rows of the certificate table, by id *)
  w_certificates : gmap nat Certificate;
  (* committed rows of the user table, by id *)
  w_users : gmap nat User;
  (* flask.g.user, the authenticated caller *)
  g_user : User;
  (* every key the RSA backend has generated, oldest first *)
  w_generated_keys : list RSAPrivateKey;
  (* current_app.logger *)
  w_log : exceptions.logger;
  (* the plugin registry, filled at start-up *)
  w_plugins : gmap string IssuerPlugin;
  (* whether the collaborator behind an association refuses a wiring, and
     with which exception, built by the collaborator *)
  w_wiring_failure : string -> option (list nat) -> option PyExn;
  (* the attributes of Certificate that can be filtered on *)
  w_columns : list string;
  (* the date of arrow.now(), as a day number *)
  w_today : Z;
  (* the issuer and the expiry time read off a certificate body *)
  w_x509 : string -> string * Z
}.

Definition set_certificates (v : gmap nat Certificate) (w : World) : World :=
  {| w_certificates := v; w_users := w_users w; g_user := g_user w;
     w_generated_keys := w_generated_keys w; w_log := w_log w;
     w_plugins := w_plugins w; w_wiring_failure := w_wiring_failure w;
     w_columns := w_columns w; w_today := w_today w;
     w_x509 := w_x509 w |}.

Definition set_users (v : gmap nat User) (w : World) : World :=
  {| w_certificates := w_certificates w; w_users := v; g_user := g_user w;
     w_generated_keys := w_generated_keys w; w_log := w_log w;
     w_plugins := w_plugins w; w_wiring_failure := w_wiring_failure w;
     w_columns := w_columns w; w_today := w_today w;
     w_x509 := w_x509 w |}.

Definition set_g_user (v : User) (w : World) : World :=
  {| w_certificates := w_certificates w; w_users := w_users w; g_user := v;
     w_generated_keys := w_generated_keys w; w_log := w_log w;
     w_plugins := w_plugins w; w_wiring_failure := w_wiring_failure w;
     w_columns := w_columns w; w_today := w_today w;
     w_x509 := w_x509 w |}.

Definition set_generated_keys (v : list RSAPrivateKey) (w : World) : World :=
  {| w_certificates := w_certificates w; w_users := w_users w;
     g_user := g_user w;
     w_generated_keys := v; w_log := w_log w;
     w_plugins := w_plugins w; w_wiring_failure := w_wiring_failure w;
     w_columns := w_columns w; w_today := w_today w;
     w_x509 := w_x509 w |}.

Definition set_log (v : exceptions.logger) (w : World) : World :=
  {| w_certificates := w_certificates w; w_users := w_users w;
     g_user := g_user w;
     w_generated_keys := w_generated_keys w; w_log := v;
     w_plugins := w_plugins w; w_wiring_failure := w_wiring_failure w;
     w_columns := w_columns w; w_today := w_today w;
     w_x509 := w_x509 w |}.

(** ** The state-and-exception monad

    A raised exception keeps the state reached so far: what was committed
    before the failure stays committed. *)

Definition Py (A : Type) : Type := World -> Result A * World.

Definition ret {A} (a : A) : Py A := fun w => (Ok a, w).

Definition raise {A} (e : PyExn) : Py A := fun w => (Raise e, w).

Definition bind {A B} (m : Py A) (k : A -> Py B) : Py B :=
  fun w =>
    match m w with
    | (Ok a, w') => k a w'
    | (Raise e, w') => (Raise e, w')
    end.

Notation "x <~ m ;; k" := (bind m (fun x => k))
  (at level 100, m at next level, right associativity,
   format "'[v' x  <~  m  ;; '/' k ']'").
Notation "m ;;; k" := (bind m (fun _ => k))
  (at level 100, right associativity).

(** Reading and writing the world. *)
Definition ask {A} (f : World -> A) : Py A := fun w => (Ok (f w), w).
Definition modify (f : World -> World) : Py unit := fun w => (Ok tt, f w).

(** [d[key]] on a dictionary. *)
Definition getitem {V} (d : gmap string V) (key : string) : Py V :=
  match d !! key with
  | Some v => ret v
  | None => raise (KeyError key)
  end.

(** [obj[key]] for an entry held in a typed field. *)
Definition getfield {V} (field : option V) (key : string) : Py V :=
  match field with
  | Some v => ret v
  | None => raise (KeyError key)
  end.

(** [raise C(args)] for a class of lemur/exceptions.py: the object is
    constructed first, which is when its initialiser runs. *)
Definition raise_lemur {A} (c : exceptions.cls) (args : list string) : Py A :=
  fun w =>
    match exceptions.construct c args (w_log w) with
    | Some (e, log') => (Raise (Lemur e), set_log log' w)
    | None => (Raise TypeError, w)
    end.

(** ** lemur.plugins.base *)

Module plugins.

(** Modelled from the spec: [plugins.get] of lemur/plugins/base.py, which
    is missing.  Resolution is by exact name and fails with the
    unknown-provider error when nothing is registered under it. *)
Definition get (name : string) : Py IssuerPlugin :=
  registry <~ ask w_plugins ;;
  match registry !! name with
  | Some p => ret p
  | None => raise_lemur exceptions.UnknownProvider [name]
  end.

End plugins.

(** ** Queries, as SQLAlchemy builds them

    A query is an expression tree that is handed to the database; the
    service only constructs it. *)

Inductive Table := TCertificate | TAuthority | TRole | TDestination
                 | TNotification.

Definition Column : Type := Table * string.

Inductive Selectable :=
| Entity (t : Table)
| Col (c : Column).

Inductive Criterion :=
| Ilike (c : Column) (pattern : string)          (* c.ilike(pattern) *)
| Eq (c : Column) (v : PyVal)                    (* c == v *)
| Le (c : Column) (v : PyVal)                    (* c <= v *)
| Ge (c : Column) (v : PyVal)                    (* c >= v *)
| In_ (c : Column) (sub : Query)                 (* c.in_(sub) *)
| Or_ (a b : Criterion)                          (* or_(a, b) *)
| Any (relationship : string) (inner : Criterion) (* rel.any(inner) *)
| FieldFilter (field : string) (values : list string)
with Query :=
| Select (what : Selectable) (where_ : list Criterion).

(** [query.filter(criterion)] *)
Definition query_filter (q : Query) (c : Criterion) : Query :=
  match q with
  | Select what cs => Select what (cs ++ [c])
  end.

Definition criteria (q : Query) : list Criterion :=
  match q with
  | Select _ cs => cs
  end.

(** What [sort_and_page] is given: the query and the arguments left in the
    dictionary. *)
Record Page := {
  page_query : Query;
  page_args : gmap string PyVal
}.

(** ** lemur.database *)

Module database.

(** The module lemur/database.py is missing; its functions are modelled on
    the persistence collaborator of the specification.  A relationship
    between tables is held as the list of the related ids. *)

(** Modelled from the spec: [database.get(Certificate, cert_id)], missing.
    The object loaded for a primary key carries that key as its id; an
    unknown key gives [None]. *)
Definition get (cert_id : nat) : Py (option Certificate) :=
  ask (fun w => set_id (Some cert_id) <$> w_certificates w !! cert_id).

(** Modelled from the spec: the durable write behind [database.create] and
    [database.update], missing.  The entity passed is written as it is at
    that moment; a row without an id receives a fresh one. *)
Definition commit (cert : Certificate) : Py Certificate :=
  fun w =>
    let i := match cert_id cert with
             | Some i => i
             | None => fresh (dom (w_certificates w))
             end in
    let row := set_id (Some i) cert in
    (Ok row, set_certificates (<[i := row]> (w_certificates w)) w).

(** Modelled from the spec: [database.create(entity)], missing. *)
Definition create (cert : Certificate) : Py Certificate := commit cert.

(** Modelled from the spec: [database.update(entity)], missing. *)
Definition update (cert : Certificate) : Py Certificate := commit cert.

(** Modelled from the spec: [database.update(entity)], missing, applied to
    a user. *)
Definition update_user (u : User) : Py User :=
  fun w => (Ok u, set_users (<[user_id u := u]> (w_users w)) w).

(** Modelled from the spec: the set reconciliation of an association list
    performed by [database.update_list], missing.  The symmetric difference
    of the current and the requested list splits into the extras, which are
    removed, and the missing, which are added. *)
Definition reconcile (current requested : list nat) : list nat :=
  let extras := list_difference current requested in
  let missing := list_difference (remove_dups requested) current in
  list_difference current extras ++ missing.

(** Modelled from the spec: [database.update_list(model, model_attr,
    item_model, items)], missing.  The wiring can be refused by the
    collaborator behind the association; otherwise the named relationship
    of the model is reconciled with [items].  The model is changed in
    place, so callers go on with the returned certificate. *)
Definition update_list (cert : Certificate) (model_attr : string)
    (items : option (list nat)) : Py Certificate :=
  refused <~ ask (fun w => w_wiring_failure w model_attr items) ;;
  match refused with
  | Some e => raise e
  | None =>
      if String.eqb model_attr "destinations" then
        ret (set_destinations
               (reconcile (cert_destinations cert) (default [] items)) cert)
      else if String.eqb model_attr "notifications" then
        ret (set_notifications
               (reconcile (cert_notifications cert) (default [] items)) cert)
      else raise (AttributeError model_attr)
  end.

(** A query that the service runs itself, as the conjunction of its row
    predicates. *)
Definition RowQuery : Type := list (Certificate -> bool).

(** Modelled from the spec: the order in which the session of
    lemur/database.py, missing, returns the rows of a table: by id. *)
Definition id_le (a b : nat * Certificate) : Prop := a.1 <= b.1.

#[global] Instance id_le_dec : RelDecision id_le.
Proof. intros a b. unfold id_le. apply _. Defined.

(** Modelled from the spec: the rows a query on the session of
    lemur/database.py, missing, ranges over: the committed rows in
    ascending order of id, each with its key as id. *)
Definition rows_by_id (table : gmap nat Certificate) : list Certificate :=
  (fun entry : nat * Certificate => set_id (Some entry.1) entry.2)
    <$> merge_sort id_le (map_to_list table).

(** Modelled from the spec: [query.all()] on the session of
    lemur/database.py, missing.  It returns the committed rows that satisfy
    the query, each with its key as id.  The queries of the service ask for
    no order; the rows come by ascending id. *)
Definition all_ (query : RowQuery) : Py (list Certificate) :=
  ask (fun w =>
         List.filter (fun row => forallb (fun p => p row) query)
                     (rows_by_id (w_certificates w))).

(** Adds [n] to the count of group [k], opening the group if it is new. *)
Fixpoint bump (k : PyVal) (n : nat) (groups : list (PyVal * nat))
    : list (PyVal * nat) :=
  match groups with
  | [] => [(k, n)]
  | (k', m) :: groups' =>
      if decide (k = k') then (k', m + n) :: groups'
      else (k', m) :: bump k n groups'
  end.

(** Modelled from the spec: the grouped count
    [db.session.query(key, func.count(counted)).group_by(key)...all()] on
    the session of lemur/database.py, missing.  One pair per value of
    [key], groups in order of first occurrence, with the number of rows of
    the group whose [counted] column is not null. *)
Definition group_count (key counted : Certificate -> PyVal)
    (query : RowQuery) : Py (list (PyVal * nat)) :=
  rows <~ all_ query ;;
  ret (foldl (fun groups row =>
                bump (key row)
                     (if decide (counted row = VNone) then 0 else 1)
                     groups)
             [] rows).

(** Modelled from the spec: [database.session_query(model)], missing: the
    query over a model or column, without criteria. *)
Definition session_query (what : Selectable) : Query := Select what [].

(** Modelled from the spec: the generic per-field filter
    [database.filter(query, model, terms)], missing.  The leading term
    names the field, which must be one of the filterable attributes; the
    attribute-not-found error is raised otherwise. *)
Definition filter (query : Query) (terms : list string) : Py Query :=
  match terms with
  | [] => raise IndexError
  | field :: values =>
      cols <~ ask w_columns ;;
      if bool_decide (field ∈ cols)
      then ret (query_filter query (FieldFilter field values))
      else raise_lemur exceptions.AttrNotFound [field]
  end.

(** Modelled from the spec: the generic sort-and-paginate helper
    [database.sort_and_page(query, model, args)], missing.  Its result is a
    function of the query and of the remaining arguments, kept symbolic. *)
Definition sort_and_page (query : Query) (args : gmap string PyVal)
    : Py Page :=
  ret {| page_query := query; page_args := args |}.

End database.

(** ** lemur.certificates.models *)

Module models.

(** Modelled from the spec: the constructor [Certificate(body, private_key,
    chain)] of lemur/certificates/models.py, which is missing.  It stores
    the three arguments and the issuer and expiry computed from the body;
    the new object has no id, no owner and no associations. *)
Definition Certificate (body : string) (private_key : option KeyPem)
    (chain : option string) : Py Certificate :=
  parse <~ ask w_x509 ;;
  ret {| cert_id := None; cert_body := body;
         cert_private_key := private_key; cert_chain := chain;
         cert_issuer := (parse body).1; cert_not_after := (parse body).2;
         cert_owner := None; cert_description := None;
         cert_active := true; cert_user := None; cert_authority := None;
         cert_destinations := []; cert_notifications := [];
         cert_elb_listeners := [] |}.

End models.

(** ** cryptography.hazmat.primitives.asymmetric.rsa *)

Module rsa.

(** The backend hands out a new key on every call. *)
Definition generate_private_key (public_exponent key_size : Z)
    : Py RSAPrivateKey :=
  fun w =>
    let k := {| key_serial := length (w_generated_keys w);
                public_exponent := public_exponent;
                key_size := key_size |} in
    (Ok k, set_generated_keys (w_generated_keys w ++ [k]) w).

End rsa.

(** ** lemur/certificates/service.py *)

Module service.

(** [get], lines 29-36. *)
Definition get (cert_id : nat) : Py (option Certificate) :=
  database.get cert_id.

(** [update], lines 79-96.  The object fetched by [get] is [None] for an
    unknown id, and the first attribute assignment then fails. *)
Definition update (cert_id : nat) (owner : string) (description : string)
    (active : bool) (destinations notifications : list nat)
    : Py Certificate :=
  found <~ get cert_id ;;
  match found with
  | None => raise (AttributeError "owner")
  | Some cert =>
      let cert := set_owner (Some owner) cert in
      let cert := set_active active cert in
      let cert := set_description (Some description) cert in
      cert <~ database.update_list cert "notifications" (Some notifications) ;;
      cert <~ database.update_list cert "destinations" (Some destinations) ;;
      database.update cert
  end.

(** The inner loop of [create_csr], lines 291-294: the names requested
    under ['subAltNames'], mapped to their x509 objects. *)
Definition general_names_of (requested : list AltName) : list GeneralName :=
  foldl (fun general_names name =>
           if String.eqb (nameType name) "DNSName"
           then general_names ++ [DNSName (name_value name)]
           else general_names)
        [] requested.

(** [create_csr], lines 260-358.  [unicode(...)] is the identity on the
    text values of the subject entries. *)
Definition create_csr (csr_config : Options)
    : Py (CsrPem * KeyPem) :=
  private_key <~ rsa.generate_private_key 65537 2048 ;;
  commonName <~ getitem (opt_fields csr_config) "commonName" ;;
  organization <~ getitem (opt_fields csr_config) "organization" ;;
  organizationalUnit <~
    getitem (opt_fields csr_config) "organizationalUnit" ;;
  country <~ getitem (opt_fields csr_config) "country" ;;
  state <~ getitem (opt_fields csr_config) "state" ;;
  location <~ getitem (opt_fields csr_config) "location" ;;
  let builder :=
    {| subject_name :=
         [ {| oid := OID_COMMON_NAME; value := commonName |};
           {| oid := OID_ORGANIZATION_NAME; value := organization |};
           {| oid := OID_ORGANIZATIONAL_UNIT_NAME;
              value := organizationalUnit |};
           {| oid := OID_COUNTRY_NAME; value := country |};
           {| oid := OID_STATE_OR_PROVINCE_NAME; value := state |};
           {| oid := OID_LOCALITY_NAME; value := location |} ];
       extensions := [] |} in
  let builder :=
    add_extension builder (BasicConstraints false None) true in
  let builder :=
    map_fold (fun k v builder =>
                if String.eqb k "subAltNames"
                then add_extension builder
                       (SubjectAlternativeName (general_names_of (names v)))
                       true
                else builder)
             builder (default ∅ (opt_extensions csr_config)) in
  let request := sign builder private_key SHA256 in
  let pem := {| pem_key := private_key;
                pem_format := TraditionalOpenSSL;
                pem_encrypted := false |} in
  let csr := {| pem_request := request |} in
  ret (csr, pem).

(** [mint], lines 99-120.  The write to [issuer_options['creator']] is
    seen by the plugin; the caller's later reads are of other keys. *)
Definition mint (issuer_options : Options)
    : Py (Certificate * KeyPem * string) :=
  authority <~ getfield (opt_authority issuer_options) "authority" ;;
  issuer <~ plugins.get (plugin_name authority) ;;
  made <~ create_csr issuer_options ;;
  let '(csr, private_key) := made in
  user <~ ask g_user ;;
  let issuer_options := set_field "creator" (email user) issuer_options in
  signed <~ (fun w => (create_certificate issuer csr issuer_options, w)) ;;
  let '(cert_body, cert_chain) := signed in
  cert <~ models.Certificate cert_body (Some private_key) (Some cert_chain) ;;
  user <~ ask g_user ;;
  let cert := set_user (Some (user_id user)) cert in
  let cert := set_authority (Some authority) cert in
  cert <~ database.update cert ;;
  ret (cert, private_key, cert_chain).

(** [g.user.certificates.append(cert)], line 186. *)
Definition append_to_user (cert : Certificate) : Py unit :=
  modify (fun w =>
    set_g_user {| user_id := user_id (g_user w);
                  email := email (g_user w);
                  certificates :=
                    certificates (g_user w) ++ option_list (cert_id cert) |}
               w).

(** [create], lines 174-193. *)
Definition create (kwargs : Options) : Py Certificate :=
  minted <~ mint kwargs ;;
  let '(cert, private_key, cert_chain) := minted in
  owner <~ getitem (opt_fields kwargs) "owner" ;;
  let cert := set_owner (Some owner) cert in
  cert <~ database.update_list cert "destinations"
            (opt_destinations kwargs) ;;
  cert <~ database.create cert ;;
  description <~ getitem (opt_fields kwargs) "description" ;;
  let cert := set_description (Some description) cert in
  append_to_user cert ;;;
  user <~ ask g_user ;;
  database.update_user user ;;;
  cert <~ database.update_list cert "notifications"
            (opt_notifications kwargs) ;;
  cert <~ database.update cert ;;
  ret cert.

(** [args.pop(key)] and [args.pop(key, default)] *)
Definition pop (key : string) (args : gmap string PyVal)
    : Py (PyVal * gmap string PyVal) :=
  match args !! key with
  | Some v => ret (v, delete key args)
  | None => raise (KeyError key)
  end.

Definition pop_default (key : string) (d : PyVal) (args : gmap string PyVal)
    : PyVal * gmap string PyVal :=
  (default d (args !! key), delete key args).

(** [terms[i]] *)
Definition index (terms : list string) (i : nat) : Py string :=
  match terms !! i with
  | Some t => ret t
  | None => raise IndexError
  end.

(** [filt.split(';')]: only strings have the method. *)
Definition str_split (filt : PyVal) : Py (list string) :=
  match filt with
  | VStr s => ret (split ";" s)
  | _ => raise (AttributeError "split")
  end.

(** ['active' in filt], reached only when [filt] is a string. *)
Definition str_contains (sub : string) (filt : PyVal) : bool :=
  match filt with
  | VStr s => contains sub s
  | _ => false
  end.

(** ['%{0}%'.format(term)] *)
Definition percent (term : string) : string := "%" +:+ term +:+ "%".

(** [weeks=+time_range]: the argument must be a number. *)
Definition weeks (time_range : PyVal) : Py Z :=
  match time_range with
  | VInt z => ret z
  | VBool b => ret (if b then 1 else 0)%Z
  | _ => raise TypeError
  end.

(** [arrow.now().replace(weeks=+time_range)] on the date [today]: the date
    that many weeks away, which must be one that [datetime] can hold. *)
Definition replace_weeks (today : Z) (time_range : PyVal) : Py Z :=
  n <~ weeks time_range ;;
  let shifted := (today + 7 * n)%Z in
  if date_exists shifted then ret shifted else raise OverflowError.

(** [render], lines 196-257.  The statements after the free-text filter
    (lines 237-257) are the local function [rest]; the issuer branch returns
    without reaching them. *)
Definition render (args : gmap string PyVal) : Py Page :=
  let query := database.session_query (Entity TCertificate) in
  popped <~ pop "time_range" args ;;
  let '(time_range, args) := popped in
  popped <~ pop "destination_id" args ;;
  let '(destination_id, args) := popped in
  let '(notification_id, args) := pop_default "notification_id" VNone args in
  popped <~ pop "show" args ;;
  let '(show, args) := popped in
  popped <~ pop "filter" args ;;
  let '(filt, args) := popped in
  let rest (query : Query) : Py Page :=
    user <~ ask g_user ;;
    let query :=
      if truthy show then
        let sub_query :=
          query_filter (database.session_query (Col (TRole, "name")))
            (Eq (TRole, "user_id") (VInt (Z.of_nat (user_id user)))) in
        query_filter query
          (Or_ (Eq (TCertificate, "user_id")
                   (VInt (Z.of_nat (user_id user))))
               (In_ (TCertificate, "owner") sub_query))
      else query in
    let query :=
      if truthy destination_id then
        query_filter query
          (Any "destinations" (Eq (TDestination, "id") destination_id))
      else query in
    let query :=
      if truthy notification_id then
        query_filter query
          (Any "notifications" (Eq (TNotification, "id") notification_id))
      else query in
    query <~ (if truthy time_range then
                today <~ ask w_today ;;
                shifted <~ replace_weeks today time_range ;;
                let to := VDate shifted in
                today <~ ask w_today ;;
                let now := VDate today in
                ret (query_filter
                       (query_filter query (Le (TCertificate, "not_after") to))
                       (Ge (TCertificate, "not_after") now))
              else ret query) ;;
    database.sort_and_page query args in
  if truthy filt then
    terms <~ str_split filt ;;
    if bool_decide ("issuer" ∈ terms) then
      term <~ index terms 1 ;;
      let sub_query :=
        query_filter (database.session_query (Col (TAuthority, "id")))
          (Ilike (TAuthority, "name") (percent term)) in
      term <~ index terms 1 ;;
      let query :=
        query_filter query
          (Or_ (Ilike (TCertificate, "issuer") (percent term))
               (In_ (TCertificate, "authority_id") sub_query)) in
      database.sort_and_page query args
    else
      query <~ (if bool_decide ("destination" ∈ terms) then
                  term <~ index terms 1 ;;
                  ret (query_filter query
                         (Any "destinations"
                            (Eq (TDestination, "id") (VStr term))))
                else if str_contains "active" filt then
                  term <~ index terms 1 ;;
                  ret (query_filter query
                         (Eq (TCertificate, "active") (VStr term)))
                else database.filter query terms) ;;
      rest query
  else rest query.

(** The result of [stats]: the dictionary with keys 'labels' and
    'values'. *)
Record Stats := {
  labels : list PyVal;
  values : list nat
}.

(** [Certificate.elb_listeners.any()] *)
Definition has_listener (c : Certificate) : bool :=
  negb (bool_decide (cert_elb_listeners c = [])).

(** [Certificate.destinations.any(Destination.id == v)]; ids are
    integers. *)
Definition in_destination (v : PyVal) (c : Certificate) : bool :=
  match v with
  | VInt z => existsb (fun d => (Z.of_nat d =? z)%Z) (cert_destinations c)
  | _ => false
  end.

Definition of_option {A} (f : A -> PyVal) (o : option A) : PyVal :=
  match o with
  | Some a => f a
  | None => VNone
  end.

(** [getattr(Certificate, name)] for the scalar columns of the model. *)
Definition getattr_Certificate (name : PyVal)
    : Py (Certificate -> PyVal) :=
  match name with
  | VStr n =>
      if String.eqb n "id" then
        ret (fun c => of_option (fun i => VInt (Z.of_nat i)) (cert_id c))
      else if String.eqb n "body" then ret (fun c => VStr (cert_body c))
      else if String.eqb n "chain" then
        ret (fun c => of_option VStr (cert_chain c))
      else if String.eqb n "issuer" then ret (fun c => VStr (cert_issuer c))
      else if String.eqb n "not_after" then
        ret (fun c => VTime (cert_not_after c))
      else if String.eqb n "owner" then
        ret (fun c => of_option VStr (cert_owner c))
      else if String.eqb n "description" then
        ret (fun c => of_option VStr (cert_description c))
      else if String.eqb n "active" then
        ret (fun c => VBool (cert_active c))
      else if String.eqb n "user_id" then
        ret (fun c => of_option (fun i => VInt (Z.of_nat i)) (cert_user c))
      else if String.eqb n "authority_id" then
        ret (fun c => of_option (fun a => VInt (Z.of_nat (authority_id a)))
                                (cert_authority c))
      else raise (AttributeError n)
  | _ => raise TypeError
  end.

(** [stats], lines 361-400.  [query] is bound to a new query at lines 368
    and 386 of the source, and so it is here; the query of line 379 is
    built without it.  [kwargs.get(key)] is [None] for a missing key.  The
    bounds of lines 381 and 382 are date-only strings, compared with the
    timestamp column as the start of their day. *)
Definition stats (kwargs : gmap string PyVal) : Py Stats :=
  let kwargs_get key := default VNone (kwargs !! key) in
  let query : database.RowQuery := [] in
  let query :=
    if decide (kwargs_get "active" = VStr "true")
    then query ++ [has_listener] else query in
  let query :=
    if truthy (kwargs_get "destination_id")
    then query ++ [in_destination (kwargs_get "destination_id")]
    else query in
  items <~ (if decide (kwargs_get "metric" = VStr "not_after") then
              start <~ ask w_today ;;
              end_ <~ replace_weeks start (VInt 32) ;;
              database.group_count
                (fun c => VStr (cert_issuer c))
                (fun c => of_option (fun i => VInt (Z.of_nat i)) (cert_id c))
                [ (fun c => (cert_not_after c <=? midnight end_)%Z);
                  (fun c => (midnight start <=? cert_not_after c)%Z) ]
            else
              attr <~ getattr_Certificate (kwargs_get "metric") ;;
              let query : database.RowQuery := [] in
              let query :=
                if decide (kwargs_get "active" = VStr "true")
                then query ++ [has_listener] else query in
              database.group_count attr attr query) ;;
  ret {| labels := items.*1; values := items.*2 |}.

(** [find_duplicates], lines 67-76:
    [Certificate.query.filter_by(body=cert_body).all()]. *)
Definition find_duplicates (body : string) : Py (list Certificate) :=
  database.all_ [fun c => bool_decide (cert_body c = body)].

(** The keyword arguments of [upload].  The certificate itself is always
    passed; the entries read with [kwargs.get] are [None] when absent, and
    so is the owner, which is read with [kwargs['owner']].  A private key
    is held as the PEM it encodes. *)
Record UploadArgs := {
  public_cert : string;
  up_private_key : option KeyPem;
  intermediate_cert : option string;
  up_destinations : option (list nat);
  up_notifications : option (list nat);
  up_owner : option string
}.

(** [upload], lines 155-171. *)
Definition upload (kwargs : UploadArgs) : Py Certificate :=
  cert <~ models.Certificate (public_cert kwargs) (up_private_key kwargs)
            (intermediate_cert kwargs) ;;
  cert <~ database.update_list cert "destinations"
            (up_destinations kwargs) ;;
  cert <~ database.update_list cert "notifications"
            (up_notifications kwargs) ;;
  owner <~ getfield (up_owner kwargs) "owner" ;;
  let cert := set_owner (Some owner) cert in
  cert <~ database.create cert ;;
  append_to_user cert ;;;
  ret cert.

End service.

(** ** Vocabulary of the statements *)

(** The arguments left for [sort_and_page] once [render] has popped its
    own. *)
Definition remaining_args (args : gmap string PyVal) : gmap string PyVal :=
  delete "filter"
    (delete "show"
       (delete "notification_id"
          (delete "destination_id" (delete "time_range" args)))).

(** The issuer sub-query in the words of the specification: certificates
    whose raw issuer partially matches the term, or whose authority is one
    of those whose name partially matches it, case-insensitively.  The
    match is partial because the pattern is the term between two [%]
    wildcards, and case-insensitive because the operator is [ilike]. *)
Definition issuer_criterion (term : string) : Criterion :=
  Or_ (Ilike (TCertificate, "issuer") ("%" +:+ term +:+ "%"))
      (In_ (TCertificate, "authority_id")
           (Select (Col (TAuthority, "id"))
                   [Ilike (TAuthority, "name") ("%" +:+ term +:+ "%")])).

(** The subject entries [create_csr] reads, in the order it reads them. *)
Definition required_keys : list string :=
  ["commonName"; "organization"; "organizationalUnit"; "country"; "state";
   "location"].

(** The key produced by the next call of the generator in world [w]. *)
Definition next_key (w : World) : RSAPrivateKey :=
  {| key_serial := length (w_generated_keys w);
     public_exponent := 65537;
     key_size := 2048 |}.

(** The extensions of a request built from [cfg]: the basic constraints,
    then the DNS names asked for under ['subAltNames'], if that key is
    there. *)
Definition requested_extensions (cfg : Options) : list Extension :=
  {| ext_value := BasicConstraints false None; critical := true |} ::
  match default ∅ (opt_extensions cfg) !! "subAltNames" with
  | Some req =>
      [ {| ext_value :=
             SubjectAlternativeName
               ((DNSName ∘ name_value) <$>
                  base.filter (fun n => nameType n = "DNSName") (names req));
           critical := true |} ]
  | None => []
  end.

(** The certificate [update] leaves behind when it is given [c]. *)
Definition updated (cert_id : nat) (owner description : string)
    (active : bool) (D N : list nat) (c : Certificate) : Certificate :=
  let c1 := set_description (Some description)
              (set_active active
                 (set_owner (Some owner) (set_id (Some cert_id) c))) in
  let c2 := set_notifications
              (database.reconcile (cert_notifications c1) N) c1 in
  set_id (Some cert_id)
    (set_destinations (database.reconcile (cert_destinations c2) D) c2).

(** The certificate [mint] records in world [w]. *)
Definition minted (w : World) (authority : Authority) (key : KeyPem)
    (body chain : string) : Certificate :=
  {| cert_id := Some (fresh (dom (w_certificates w)));
     cert_body := body;
     cert_private_key := Some key;
     cert_chain := Some chain;
     cert_issuer := (w_x509 w body).1;
     cert_not_after := (w_x509 w body).2;
     cert_owner := None;
     cert_description := None;
     cert_active := true;
     cert_user := Some (user_id (g_user w));
     cert_authority := Some authority;
     cert_destinations := [];
     cert_notifications := [];
     cert_elb_listeners := [] |}.

(** ** Example inputs *)

Definition alice : User :=
  {| user_id := 1; email := "alice@example.com"; certificates := [] |}.

Definition test_authority : Authority :=
  {| authority_id := 1; authority_name := "TestCA";
     plugin_name := "test-issuer" |}.

Definition test_plugin : IssuerPlugin :=
  {| create_certificate := fun _ _ => Ok ("BODY", "CHAIN") |}.

(** A fresh installation in which every wiring is accepted. *)
Definition quiet_world : World :=
  {| w_certificates := ∅;
     w_users := ∅;
     g_user := alice;
     w_generated_keys := [];
     w_log := [];
     w_plugins := {[ "test-issuer" := test_plugin ]};
     w_wiring_failure := fun _ _ => None;
     w_columns := ["name"; "owner"; "cn"];
     w_today := 0;
     w_x509 := fun _ => ("TestCA", midnight 365) |}.

(** The same, with a destination collaborator that refuses every wiring. *)
Definition refusing_world : World :=
  {| w_certificates := ∅;
     w_users := ∅;
     g_user := alice;
     w_generated_keys := [];
     w_log := [];
     w_plugins := {[ "test-issuer" := test_plugin ]};
     w_wiring_failure := fun model_attr _ =>
       if String.eqb model_attr "destinations"
       then Some (Lemur (exceptions.Instance exceptions.InvalidDistribution
                           [("field", "cloudfront")]))
       else None;
     w_columns := ["name"; "owner"; "cn"];
     w_today := 0;
     w_x509 := fun _ => ("TestCA", midnight 365) |}.

Definition example_subject : gmap string string :=
  <["commonName" := "www.example.com"]>
    (<["organization" := "Example"]>
       (<["organizationalUnit" := "Operations"]>
          (<["country" := "US"]>
             (<["state" := "CA"]> (<["location" := "Los Gatos"]> ∅))))).

Definition example_names : ExtensionRequest :=
  {| names := [ {| nameType := "DNSName"; name_value := "www.example.com" |};
                {| nameType := "IPAddress"; name_value := "10.0.0.1" |};
                {| nameType := "DNSName"; name_value := "example.com" |} ] |}.

Definition example_options : Options :=
  {| opt_fields :=
       <["owner" := "ops@example.com"]>
         (<["description" := "front door"]> example_subject);
     opt_authority := Some test_authority;
     opt_extensions := Some {[ "subAltNames" := example_names ]};
     opt_destinations := Some [7%nat];
     opt_notifications := Some [3%nat] |}.

(** The subject without its common name. *)
Definition nameless_options : Options :=
  {| opt_fields := delete "commonName" example_subject;
     opt_authority := Some test_authority;
     opt_extensions := None;
     opt_destinations := None;
     opt_notifications := None |}.

Definition example_key : KeyPem :=
  {| pem_key := {| key_serial := 0; public_exponent := 65537;
                   key_size := 2048 |};
     pem_format := TraditionalOpenSSL;
     pem_encrypted := false |}.

(** The arguments of a [render] call that restricts by visibility,
    destination, notification and expiry, with free-text filter [filt]. *)
Definition render_args (filt : string) : gmap string PyVal :=
  <["time_range" := VInt 8]>
    (<["destination_id" := VInt 7]>
       (<["notification_id" := VInt 3]>
          (<["show" := VBool true]>
             (<["filter" := VStr filt]> (<["page" := VInt 1]> ∅))))).

Definition example_certificate (issuer : string) (destinations : list nat)
    (listeners : list nat) : Certificate :=
  {| cert_id := None; cert_body := "BODY of " +:+ issuer;
     cert_private_key := None; cert_chain := None;
     cert_issuer := issuer; cert_not_after := midnight 30;
     cert_owner := Some "ops@example.com"; cert_description := None;
     cert_active := true; cert_user := Some 1%nat; cert_authority := None;
     cert_destinations := destinations; cert_notifications := [];
     cert_elb_listeners := listeners |}.

(** An inventory of three certificates; only the first belongs to
    destination 7. *)
Definition inventory : World :=
  {| w_certificates :=
       <[1%nat := example_certificate "CA-A" [7%nat] [1%nat]]>
         (<[2%nat := example_certificate "CA-B" [] []]>
            (<[3%nat := example_certificate "CA-A" [9%nat] []]> ∅));
     w_users := ∅;
     g_user := alice;
     w_generated_keys := [];
     w_log := [];
     w_plugins := ∅;
     w_wiring_failure := fun _ _ => None;
     w_columns := ["name"; "owner"; "cn"];
     w_today := 0;
     w_x509 := fun _ => ("TestCA", midnight 365) |}.

(** The arguments of a [stats] call for destination 7. *)
Definition stats_kwargs (metric : string) : gmap string PyVal :=
  <["metric" := VStr metric]> (<["destination_id" := VInt 7]> ∅).

(** ** Vocabulary of the further statements *)

(** A computation that leaves the world as it found it, whatever it
    returns or raises. *)
Definition read_only {A} (m : Py A) : Prop := forall w, (m w).2 = w.

(** The arguments [render] pops without a default. *)
Definition render_required : list string :=
  ["time_range"; "destination_id"; "show"; "filter"].

(** The visibility criterion of [render] for the caller [uid]: owned by the
    caller, or by one of the caller's roles. *)
Definition visibility_criterion (uid : nat) : Criterion :=
  Or_ (Eq (TCertificate, "user_id") (VInt (Z.of_nat uid)))
      (In_ (TCertificate, "owner")
           (Select (Col (TRole, "name"))
                   [Eq (TRole, "user_id") (VInt (Z.of_nat uid))])).

(** The expiry window of [render]: nothing for a missing or zero range,
    else not-after between today and that many weeks from today. *)
Definition window_criteria (today : Z) (time_range : PyVal)
    : list Criterion :=
  match time_range with
  | VInt n =>
      if (n =? 0)%Z then []
      else [ Le (TCertificate, "not_after") (VDate (today + 7 * n));
             Ge (TCertificate, "not_after") (VDate today) ]
  | _ => []
  end.

(** The first subject entry, in reading order, that [cfg] lacks. *)
Definition first_missing (cfg : Options) : option string :=
  List.find (fun k => bool_decide (opt_fields cfg !! k = None))
            required_keys.

(** The certificate [upload] records in world [w] for owner [owner]. *)
Definition uploaded (w : World) (kwargs : service.UploadArgs)
    (owner : string) : Certificate :=
  {| cert_id := Some (fresh (dom (w_certificates w)));
     cert_body := service.public_cert kwargs;
     cert_private_key := service.up_private_key kwargs;
     cert_chain := service.intermediate_cert kwargs;
     cert_issuer := (w_x509 w (service.public_cert kwargs)).1;
     cert_not_after := (w_x509 w (service.public_cert kwargs)).2;
     cert_owner := Some owner;
     cert_description := None;
     cert_active := true;
     cert_user := None;
     cert_authority := None;
     cert_destinations :=
       database.reconcile [] (default [] (service.up_destinations kwargs));
     cert_notifications :=
       database.reconcile [] (default [] (service.up_notifications kwargs));
     cert_elb_listeners := [] |}.

(** The rows of the certificate table as the session returns them. *)
Definition table_rows (w : World) : list Certificate :=
  database.rows_by_id (w_certificates w).

(** The window of the ['not_after'] metric of [stats]: from the start of
    today to the start of the day 32 weeks from today, both instants
    included. *)
Definition expiring (w : World) (c : Certificate) : bool :=
  ((cert_not_after c <=? midnight (w_today w + 7 * 32)) &&
   (midnight (w_today w) <=? cert_not_after c))%Z.

(** Whether the date [time_range] weeks from [today] is needed by [render]
    and can be held: a range of [None] or zero asks for no date. *)
Definition window_exists (today : Z) (time_range : PyVal) : bool :=
  match time_range with
  | VInt n => (n =? 0)%Z || date_exists (today + 7 * n)
  | _ => true
  end.

(** Whether a value is a [str]. *)
Definition is_str (v : PyVal) : bool :=
  match v with
  | VStr _ => true
  | _ => false
  end.

(** ** Further example inputs *)

(** Options that name no authority. *)
Definition orphan_options : Options :=
  {| opt_fields := example_subject;
     opt_authority := None;
     opt_extensions := None;
     opt_destinations := None;
     opt_notifications := None |}.

(** Options whose authority names a plugin that is not registered. *)
Definition stray_options : Options :=
  {| opt_fields := example_subject;
     opt_authority :=
       Some {| authority_id := 2; authority_name := "Elsewhere";
               plugin_name := "no-such-issuer" |};
     opt_extensions := None;
     opt_destinations := None;
     opt_notifications := None |}.

(** Options that ask for an address as the only alternative name. *)
Definition address_options : Options :=
  {| opt_fields := example_subject;
     opt_authority := Some test_authority;
     opt_extensions :=
       Some {[ "subAltNames" :=
                 {| names := [ {| nameType := "IPAddress";
                                  name_value := "10.0.0.1" |} ] |} ]};
     opt_destinations := None;
     opt_notifications := None |}.

(** A plugin whose authority is out of funds. *)
Definition unpaid_plugin : IssuerPlugin :=
  {| create_certificate := fun _ _ =>
       Raise (Lemur (exceptions.Instance exceptions.IssuerPaymentRequired
                       [("message", "no funds")])) |}.

Definition unpaid_world : World :=
  {| w_certificates := ∅;
     w_users := ∅;
     g_user := alice;
     w_generated_keys := [];
     w_log := [];
     w_plugins := {[ "test-issuer" := unpaid_plugin ]};
     w_wiring_failure := fun _ _ => None;
     w_columns := ["name"; "owner"; "cn"];
     w_today := 0;
     w_x509 := fun _ => ("TestCA", midnight 365) |}.

(** The inventory, with a destination collaborator that refuses every
    wiring. *)
Definition refusing_inventory : World :=
  {| w_certificates := w_certificates inventory;
     w_users := ∅;
     g_user := alice;
     w_generated_keys := [];
     w_log := [];
     w_plugins := ∅;
     w_wiring_failure := w_wiring_failure refusing_world;
     w_columns := ["name"; "owner"; "cn"];
     w_today := 0;
     w_x509 := fun _ => ("TestCA", midnight 365) |}.

Definition example_upload : service.UploadArgs :=
  {| service.public_cert := "UPLOADED BODY";
     service.up_private_key := None;
     service.intermediate_cert := Some "UPLOADED CHAIN";
     service.up_destinations := Some [7%nat];
     service.up_notifications := Some [3%nat];
     service.up_owner := Some "ops@example.com" |}.

(** * Properties *)

(** ** Running the monad *)

Lemma bind_ok {A B} (m : Py A) (k : A -> Py B) w a w' :
  m w = (Ok a, w') -> bind m k w = k a w'.
Proof. intros H. unfold bind. rewrite H. reflexivity. Qed.

Lemma bind_raise {A B} (m : Py A) (k : A -> Py B) w e w' :
  m w = (Raise e, w') -> bind m k w = (Raise e, w').
Proof. intros H. unfold bind. rewrite H. reflexivity. Qed.

Lemma bind_pop {B} key (args : gmap string PyVal) v (k : _ -> Py B) w :
  args !! key = Some v ->
  bind (service.pop key args) k w = k (v, delete key args) w.
Proof. intros H. unfold bind, service.pop. rewrite H. reflexivity. Qed.

(** Steps [render] through its [pop]s; the popped values are read from
    the hypotheses. *)
Ltac render_pops args :=
  unfold service.render;
  erewrite (bind_pop "time_range") by eassumption;
  cbv beta iota;
  erewrite (bind_pop "destination_id")
    by (rewrite !lookup_delete_ne by done; eassumption);
  cbv beta iota;
  unfold service.pop_default;
  erewrite (bind_pop "show")
    by (rewrite !lookup_delete_ne by done; eassumption);
  cbv beta iota;
  erewrite (bind_pop "filter")
    by (rewrite !lookup_delete_ne by done; eassumption);
  cbv beta iota;
  rewrite (lookup_delete_ne _ "destination_id" "notification_id") by done;
  rewrite (lookup_delete_ne _ "time_range" "notification_id") by done;
  fold (remaining_args args).

(** ** Logging of exceptions *)

(** C7, as amended.  An exception is logged when it is constructed if its
    initialiser is, or calls, the one of [LemurException]: this is so for
    [LemurException] itself, for [InvalidListener], which inherits it, and
    for [IssuerPaymentRequired], which calls it after setting its message.
    Each appends exactly one entry, the object itself.  The classes derived
    from the builtin [Exception] ([InvalidConfiguration], [InvalidAuthority],
    [UnknownProvider]) leave the log as it was. *)
Theorem C7_logged_at_construction (args : list string) (message : string)
    (log : exceptions.logger) :
  exceptions.construct exceptions.LemurException args log
    = Some (exceptions.Instance exceptions.LemurException [],
            log ++ [exceptions.Instance exceptions.LemurException []]) /\
  exceptions.construct exceptions.InvalidListener args log
    = Some (exceptions.Instance exceptions.InvalidListener [],
            log ++ [exceptions.Instance exceptions.InvalidListener []]) /\
  exceptions.construct exceptions.IssuerPaymentRequired [message] log
    = Some (exceptions.Instance exceptions.IssuerPaymentRequired
              [("message", message)],
            log ++ [exceptions.Instance exceptions.IssuerPaymentRequired
                      [("message", message)]]) /\
  exceptions.construct exceptions.InvalidConfiguration args log
    = Some (exceptions.Instance exceptions.InvalidConfiguration [], log) /\
  exceptions.construct exceptions.InvalidAuthority args log
    = Some (exceptions.Instance exceptions.InvalidAuthority [], log) /\
  exceptions.construct exceptions.UnknownProvider args log
    = Some (exceptions.Instance exceptions.UnknownProvider [], log).
Proof. repeat split. Qed.

(** C7, as stated, fails: constructing [UnknownProvider] or
    [InvalidConfiguration] succeeds and writes nothing to an empty log. *)
Lemma C7_counterexample :
  exceptions.construct exceptions.UnknownProvider ["acme"] []
    = Some (exceptions.Instance exceptions.UnknownProvider [], []) /\
  exceptions.construct exceptions.InvalidConfiguration ["bad"] []
    = Some (exceptions.Instance exceptions.InvalidConfiguration [], []).
Proof. split; reflexivity. Qed.

(** The initialisers that replace the inherited one without calling it:
    nothing is logged for these classes either. *)
Lemma overriding_init_skips_log (args : list string)
    (log : exceptions.logger) (c : exceptions.cls)
    (made : exceptions.instance * exceptions.logger) :
  c ∈ [exceptions.DuplicateError; exceptions.InvalidDistribution;
       exceptions.TokenExchangeFailed; exceptions.AttrNotFound] ->
  exceptions.construct c args log = Some made ->
  made.2 = log.
Proof.
  rewrite !elem_of_cons, elem_of_nil.
  intros [-> | [-> | [-> | [-> | []]]]];
    destruct args as [|a1 [|a2 [|a3 args]]]; cbn;
    first [discriminate | intros [= <-]; reflexivity].
Qed.

(** ** render *)

Lemma issuer_term_truthy (f : string) :
  "issuer" ∈ split ";" f -> truthy (VStr f) = true.
Proof.
  destruct f; [|reflexivity].
  simpl. rewrite list_elem_of_singleton. discriminate.
Qed.

(** C4.  When a term of the free-text filter is ['issuer'], [render]
    computes its result from the issuer sub-query alone and returns right
    after [sort_and_page]: the query holds the single issuer criterion,
    whatever the values of [show], [destination_id], [notification_id] and
    [time_range].  The criterion compares, with [ilike], the raw issuer and
    the names of the authorities with the term between two [%] wildcards.
    The term searched for is the second one; when there is none, reading
    it raises [IndexError]. *)
Theorem C4_issuer_short_circuits (args : gmap string PyVal) (w : World)
    (tr d sh : PyVal) (f : string) :
  args !! "time_range" = Some tr ->
  args !! "destination_id" = Some d ->
  args !! "show" = Some sh ->
  args !! "filter" = Some (VStr f) ->
  "issuer" ∈ split ";" f ->
  service.render args w =
    (match split ";" f !! 1%nat with
     | Some term =>
         Ok {| page_query :=
                 Select (Entity TCertificate) [issuer_criterion term];
               page_args := remaining_args args |}
     | None => Raise IndexError
     end, w).
Proof.
  intros Ht Hd Hs Hf Hin.
  render_pops args.
  rewrite (issuer_term_truthy _ Hin).
  unfold service.str_split.
  erewrite bind_ok by reflexivity.
  rewrite bool_decide_eq_true_2 by exact Hin.
  unfold service.index.
  destruct (split ";" f !! 1%nat) as [term|]; reflexivity.
Qed.

Lemma C4_witness :
  service.render (render_args "issuer;DigiCert") quiet_world =
    (Ok {| page_query :=
             Select (Entity TCertificate)
               [ Or_ (Ilike (TCertificate, "issuer") "%DigiCert%")
                     (In_ (TCertificate, "authority_id")
                          (Select (Col (TAuthority, "id"))
                                  [Ilike (TAuthority, "name")
                                         "%DigiCert%"])) ];
           page_args := remaining_args (render_args "issuer;DigiCert") |},
     quiet_world).
Proof.
  apply (C4_issuer_short_circuits (render_args "issuer;DigiCert") quiet_world
           (VInt 8) (VInt 7) (VBool true) "issuer;DigiCert");
    try reflexivity.
  simpl. repeat constructor.
Defined.

(** C10.  When the free-text filter is the single term ['issuer'] or the
    single term ['destination'], [render] raises [IndexError] while reading
    the second term; nothing is returned, and the error is none of
    lemur/exceptions.py. *)
Theorem C10_single_special_term_raises (args : gmap string PyVal)
    (w : World) (tr d sh : PyVal) (term : string) :
  args !! "time_range" = Some tr ->
  args !! "destination_id" = Some d ->
  args !! "show" = Some sh ->
  args !! "filter" = Some (VStr term) ->
  term = "issuer" \/ term = "destination" ->
  service.render args w = (Raise IndexError, w).
Proof.
  intros Ht Hd Hs Hf Hterm.
  render_pops args.
  destruct Hterm as [-> | ->]; reflexivity.
Qed.

Lemma C10_witness :
  service.render (render_args "issuer") quiet_world
    = (Raise IndexError, quiet_world) /\
  service.render (render_args "destination") quiet_world
    = (Raise IndexError, quiet_world).
Proof.
  split.
  - apply (C10_single_special_term_raises (render_args "issuer") quiet_world
             (VInt 8) (VInt 7) (VBool true) "issuer");
      try reflexivity.
    by left.
  - apply (C10_single_special_term_raises (render_args "destination")
             quiet_world (VInt 8) (VInt 7) (VBool true) "destination");
      try reflexivity.
    by right.
Defined.

Lemma truthy_VStr (f : string) : f <> "" -> truthy (VStr f) = true.
Proof. destruct f; [congruence | reflexivity]. Qed.

(** Runs the statements of [render] that follow the free-text filter, by
    cases on the four remaining arguments. *)
Ltac render_rest_cases :=
  unfold service.replace_weeks, service.weeks, database.sort_and_page;
  unfold bind, ask, ret, raise;
  repeat match goal with
         | |- context [truthy ?v] => destruct (truthy v)
         | |- context [match ?tr with VNone => _ | _ => _ end] => destruct tr
         end;
  cbn;
  repeat match goal with
         | |- context [date_exists ?day] => destruct (date_exists day)
         end;
  cbn.

(** C5, as amended.  The special handling of a free-text filter is chosen
    by occurrence, not by the leading term: the issuer sub-query when any
    term is ['issuer']; otherwise the destination membership filter when
    any term is ['destination']; otherwise the comparison of [active] with
    a literal when the filter string contains ['active'] anywhere.  In all
    three the value compared with is the second term of the list.  Only a
    filter with none of these goes to the generic per-field filter, whose
    field is the leading term and must be filterable.  The chosen criterion
    is the first of the query that is paged. *)
Theorem C5_special_handling_by_occurrence (args : gmap string PyVal)
    (w : World) (tr d sh : PyVal) (f : string) (page : Page) :
  args !! "time_range" = Some tr ->
  args !! "destination_id" = Some d ->
  args !! "show" = Some sh ->
  args !! "filter" = Some (VStr f) ->
  f <> "" ->
  (service.render args w).1 = Ok page ->
  ("issuer" ∈ split ";" f ->
     exists term, split ";" f !! 1%nat = Some term /\
       criteria (page_query page) = [issuer_criterion term]) /\
  ("issuer" ∉ split ";" f -> "destination" ∈ split ";" f ->
     exists term more, split ";" f !! 1%nat = Some term /\
       criteria (page_query page) =
         Any "destinations" (Eq (TDestination, "id") (VStr term)) :: more) /\
  ("issuer" ∉ split ";" f -> "destination" ∉ split ";" f ->
   contains "active" f = true ->
     exists term more, split ";" f !! 1%nat = Some term /\
       criteria (page_query page) =
         Eq (TCertificate, "active") (VStr term) :: more) /\
  ("issuer" ∉ split ";" f -> "destination" ∉ split ";" f ->
   contains "active" f = false ->
     exists field values more, split ";" f = field :: values /\
       field ∈ w_columns w /\
       criteria (page_query page) = FieldFilter field values :: more).
Proof.
  intros Ht Hd Hs Hf Hne Hrun.
  revert Hrun. render_pops args.
  rewrite (truthy_VStr _ Hne).
  unfold service.str_split. erewrite bind_ok by reflexivity.
  destruct (decide ("issuer" ∈ split ";" f)) as [Hi|Hi].
  { rewrite bool_decide_eq_true_2 by done. unfold service.index.
    destruct (split ";" f !! 1%nat) as [term|] eqn:E; [|discriminate].
    cbn. intros [= <-]. repeat split; try done. intros _. by exists term. }
  rewrite bool_decide_eq_false_2 by done.
  destruct (decide ("destination" ∈ split ";" f)) as [Hde|Hde].
  { rewrite bool_decide_eq_true_2 by done. unfold service.index.
    destruct (split ";" f !! 1%nat) as [term|] eqn:E; [|discriminate].
    erewrite bind_ok by reflexivity.
    intros Hrun. repeat split; try done. intros _ _. exists term.
    revert Hrun.
    render_rest_cases; intros [= <-]; eexists; split; try reflexivity. }
  rewrite bool_decide_eq_false_2 by done.
  unfold service.str_contains.
  destruct (contains "active" f) eqn:Ha.
  { unfold service.index.
    destruct (split ";" f !! 1%nat) as [term|] eqn:E; [|discriminate].
    erewrite bind_ok by reflexivity.
    intros Hrun. repeat split; try done. intros _ _ _. exists term.
    revert Hrun.
    render_rest_cases; intros [= <-]; eexists; split; try reflexivity. }
  unfold database.filter.
  destruct (split ";" f) as [|field values] eqn:E; [discriminate|].
  unfold bind at 1. unfold bind at 1. unfold ask at 1.
  destruct (decide (field ∈ w_columns w)) as [Hc|Hc].
  2:{ rewrite bool_decide_eq_false_2 by done. unfold raise_lemur.
      destruct (exceptions.construct _ _ _) as [[? ?]|]; discriminate. }
  rewrite bool_decide_eq_true_2 by done. unfold ret at 1.
  intros Hrun. repeat split; try done. intros _ _ _. exists field, values.
  revert Hrun.
  render_rest_cases; intros [= <-]; eexists; repeat split; try done.
Qed.

Lemma C5_witness :
  exists term,
    split ";" "name;issuer" !! 1%nat = Some term /\
    criteria (Select (Entity TCertificate) [issuer_criterion "issuer"])
      = [issuer_criterion term].
Proof.
  apply (C5_special_handling_by_occurrence
           (render_args "name;issuer") quiet_world
           (VInt 8) (VInt 7) (VBool true) "name;issuer"
           {| page_query :=
                Select (Entity TCertificate) [issuer_criterion "issuer"];
              page_args := remaining_args (render_args "name;issuer") |});
    try reflexivity.
  - discriminate.
  - simpl. repeat constructor.
Defined.

(** C5, as stated, fails: the leading term of ['name;issuer'] is the
    filterable field ['name'], which is no special term, yet [render] runs
    the issuer sub-query, on the value ['issuer'], and no per-field filter.
    Likewise ['name;inactive'] is compared with the [active] column because
    the string contains ['active']. *)
Lemma C5_counterexample :
  head (split ";" "name;issuer") = Some "name" /\
  "name" ∈ w_columns quiet_world /\
  (service.render (render_args "name;issuer") quiet_world).1 =
    Ok {| page_query :=
            Select (Entity TCertificate) [issuer_criterion "issuer"];
          page_args := remaining_args (render_args "name;issuer") |} /\
  head (split ";" "name;inactive") = Some "name" /\
  (service.render (render_args "name;inactive") quiet_world).1 =
    Ok {| page_query :=
            Select (Entity TCertificate)
              [ Eq (TCertificate, "active") (VStr "inactive");
                Or_ (Eq (TCertificate, "user_id") (VInt 1))
                    (In_ (TCertificate, "owner")
                         (Select (Col (TRole, "name"))
                                 [Eq (TRole, "user_id") (VInt 1)]));
                Any "destinations" (Eq (TDestination, "id") (VInt 7));
                Any "notifications" (Eq (TNotification, "id") (VInt 3));
                Le (TCertificate, "not_after") (VDate 56);
                Ge (TCertificate, "not_after") (VDate 0) ];
          page_args := remaining_args (render_args "name;inactive") |}.
Proof.
  split; [reflexivity|].
  split; [simpl; repeat constructor|].
  repeat split.
Qed.

(** ** create_csr *)

Lemma bind_getitem {V B} (d : gmap string V) key v (k : V -> Py B) w :
  d !! key = Some v -> bind (getitem d key) k w = k v w.
Proof. intros H. unfold bind, getitem. by rewrite H. Qed.

Lemma bind_getitem_missing {V B} (d : gmap string V) key (k : V -> Py B) w :
  d !! key = None -> bind (getitem d key) k w = (Raise (KeyError key), w).
Proof. intros H. unfold bind, getitem. by rewrite H. Qed.

(** A loop over a dictionary that acts on one key only. *)
Lemma fold_single_key {V B} (key : string) (g : V -> B -> B) (b : B)
    (m : gmap string V) :
  map_fold (fun k v acc => if String.eqb k key then g v acc else acc) b m
  = match m !! key with Some v => g v b | None => b end.
Proof.
  apply (map_fold_weak_ind
           (fun r m => r = match m !! key with
                           | Some v => g v b
                           | None => b
                           end)).
  - by rewrite lookup_empty.
  - intros i x m' r Hnone ->.
    destruct (String.eqb_spec i key) as [->|Hne].
    + by rewrite Hnone, lookup_insert_eq.
    + by rewrite lookup_insert_ne.
Qed.

Lemma general_names_loop (requested : list AltName)
    (acc : list GeneralName) :
  foldl (fun general_names name =>
           if String.eqb (nameType name) "DNSName"
           then general_names ++ [DNSName (name_value name)]
           else general_names) acc requested
  = acc ++ ((DNSName ∘ name_value) <$>
              base.filter (fun n => nameType n = "DNSName") requested).
Proof.
  revert acc. induction requested as [|n l IH]; intros acc; simpl.
  - by rewrite app_nil_r.
  - rewrite IH, filter_cons.
    destruct (String.eqb_spec (nameType n) "DNSName") as [E|E].
    + rewrite decide_True by done. simpl. by rewrite <- app_assoc.
    + by rewrite decide_False.
Qed.

Lemma general_names_of_filter (requested : list AltName) :
  service.general_names_of requested
  = (DNSName ∘ name_value) <$>
      base.filter (fun n => nameType n = "DNSName") requested.
Proof. unfold service.general_names_of. by rewrite general_names_loop. Qed.

(** The run of [create_csr] on a complete subject. *)
Lemma create_csr_ok (cfg : Options) (w : World)
    (cn o ou c st l : string) :
  opt_fields cfg !! "commonName" = Some cn ->
  opt_fields cfg !! "organization" = Some o ->
  opt_fields cfg !! "organizationalUnit" = Some ou ->
  opt_fields cfg !! "country" = Some c ->
  opt_fields cfg !! "state" = Some st ->
  opt_fields cfg !! "location" = Some l ->
  service.create_csr cfg w =
    (Ok ({| pem_request :=
              {| csr_subject :=
                   [ {| oid := OID_COMMON_NAME; value := cn |};
                     {| oid := OID_ORGANIZATION_NAME; value := o |};
                     {| oid := OID_ORGANIZATIONAL_UNIT_NAME; value := ou |};
                     {| oid := OID_COUNTRY_NAME; value := c |};
                     {| oid := OID_STATE_OR_PROVINCE_NAME; value := st |};
                     {| oid := OID_LOCALITY_NAME; value := l |} ];
                 csr_extensions := requested_extensions cfg;
                 csr_key := next_key w;
                 csr_hash := SHA256 |} |},
         {| pem_key := next_key w; pem_format := TraditionalOpenSSL;
            pem_encrypted := false |}),
     set_generated_keys (w_generated_keys w ++ [next_key w]) w).
Proof.
  intros H1 H2 H3 H4 H5 H6. unfold service.create_csr.
  unfold bind at 1. unfold rsa.generate_private_key. fold (next_key w).
  rewrite (bind_getitem _ _ _ _ _ H1), (bind_getitem _ _ _ _ _ H2),
    (bind_getitem _ _ _ _ _ H3), (bind_getitem _ _ _ _ _ H4),
    (bind_getitem _ _ _ _ _ H5), (bind_getitem _ _ _ _ _ H6).
  unfold ret. do 2 f_equal.
  rewrite (fold_single_key "subAltNames"
             (fun v b =>
                add_extension b
                  (SubjectAlternativeName (service.general_names_of (names v)))
                  true)).
  unfold requested_extensions, sign.
  destruct (default ∅ (opt_extensions cfg) !! "subAltNames") as [req|];
    simpl.
  - by rewrite general_names_of_filter.
  - done.
Qed.

(** Reads one subject entry of [create_csr]: either the entry is there and
    the run goes on, or the goal is closed by [tac]. *)
Ltac subject_entry cfg k tac :=
  let E := fresh "E" in
  destruct (opt_fields cfg !! k) eqn:E;
  [ rewrite (bind_getitem _ _ _ _ _ E)
  | rewrite (bind_getitem_missing _ _ _ _ E); tac k E ].

Ltac subject_entries cfg tac :=
  subject_entry cfg "commonName" tac;
  subject_entry cfg "organization" tac;
  subject_entry cfg "organizationalUnit" tac;
  subject_entry cfg "country" tac;
  subject_entry cfg "state" tac;
  subject_entry cfg "location" tac.

(** Whatever its outcome, [create_csr] changes the world by one generated
    key and nothing else. *)
Lemma create_csr_frame (cfg : Options) (w w' : World)
    (r : Result (CsrPem * KeyPem)) :
  service.create_csr cfg w = (r, w') ->
  w' = set_generated_keys (w_generated_keys w ++ [next_key w]) w.
Proof.
  unfold service.create_csr.
  unfold bind at 1. unfold rsa.generate_private_key. fold (next_key w).
  subject_entries cfg ltac:(fun k E => by intros [= _ <-]).
  by intros [= _ <-].
Qed.

(** The first element of a list that passes a test splits the list into
    the elements before it, which all fail the test, and those after. *)
Lemma find_split {A} (p : A -> bool) (l : list A) (x : A) :
  List.find p l = Some x ->
  exists before after,
    l = before ++ x :: after /\
    (forall y, y ∈ before -> p y = false) /\
    p x = true.
Proof.
  induction l as [|a l IH]; simpl; [discriminate|].
  destruct (p a) eqn:Ea.
  - intros [= ->]. exists [], l. split; [done|]. split; [|done].
    intros y Hy. by apply elem_of_nil in Hy.
  - intros Hfind. destruct (IH Hfind) as (before & after & -> & Hb & Hx).
    exists (a :: before), after. split; [done|]. split; [|done].
    intros y Hy. apply elem_of_cons in Hy as [-> | Hy]; [done | by apply Hb].
Qed.

(** The run of [create_csr] on a configuration that lacks a subject
    entry. *)
Lemma create_csr_first_missing (cfg : Options) (w : World) (key : string) :
  first_missing cfg = Some key ->
  service.create_csr cfg w =
    (Raise (KeyError key),
     set_generated_keys (w_generated_keys w ++ [next_key w]) w).
Proof.
  unfold first_missing, required_keys, service.create_csr.
  unfold bind at 1. unfold rsa.generate_private_key. fold (next_key w).
  subject_entries cfg ltac:(fun k E =>
    cbn [List.find];
    rewrite ?bool_decide_eq_false_2 by congruence;
    rewrite bool_decide_eq_true_2 by done;
    by intros [= <-]).
  cbn [List.find]. rewrite !bool_decide_eq_false_2 by congruence.
  discriminate.
Qed.

(** C2, as amended.  When one of the six subject entries that [create_csr]
    reads is missing, the call raises the dictionary's [KeyError] for the
    first missing entry in the order commonName, organization,
    organizationalUnit, country, state, location: every entry before it in
    that order is present.  Neither a request nor a key is returned; by then
    the RSA key pair (2048 bits, exponent 65537) has been generated, and the
    world differs from the initial one by exactly that key. *)
Theorem C2_missing_entry_raises_after_keygen (cfg : Options) (w : World)
    (key : string) :
  key ∈ required_keys ->
  opt_fields cfg !! key = None ->
  exists before key' after,
    required_keys = before ++ key' :: after /\
    (forall k, k ∈ before -> is_Some (opt_fields cfg !! k)) /\
    key' ∈ required_keys /\
    opt_fields cfg !! key' = None /\
    service.create_csr cfg w =
      (Raise (KeyError key'),
       set_generated_keys (w_generated_keys w ++ [next_key w]) w) /\
    key_size (next_key w) = 2048%Z /\
    public_exponent (next_key w) = 65537%Z.
Proof.
  intros Hin Hnone.
  destruct (first_missing cfg) as [key'|] eqn:Hfirst.
  - destruct (find_split _ _ _ Hfirst) as (before & after & Hsplit & Hb & Hk).
    apply bool_decide_eq_true in Hk.
    exists before, key', after. split; [exact Hsplit|].
    split.
    { intros k Hk'. specialize (Hb k Hk').
      apply bool_decide_eq_false in Hb.
      by destruct (opt_fields cfg !! k). }
    split; [rewrite Hsplit; apply elem_of_app; right; by left|].
    split; [exact Hk|].
    split; [by apply create_csr_first_missing|].
    by split.
  - exfalso. unfold first_missing in Hfirst.
    pose proof (List.find_none _ _ Hfirst key) as Hfalse.
    apply list_elem_of_In in Hin. specialize (Hfalse Hin).
    apply bool_decide_eq_false in Hfalse. by apply Hfalse.
Qed.

Lemma C2_witness :
  exists before key' after,
    required_keys = before ++ key' :: after /\
    (forall k, k ∈ before -> is_Some (opt_fields nameless_options !! k)) /\
    key' ∈ required_keys /\
    opt_fields nameless_options !! key' = None /\
    service.create_csr nameless_options quiet_world =
      (Raise (KeyError key'),
       set_generated_keys
         (w_generated_keys quiet_world ++ [next_key quiet_world])
         quiet_world) /\
    key_size (next_key quiet_world) = 2048%Z /\
    public_exponent (next_key quiet_world) = 65537%Z.
Proof.
  apply (C2_missing_entry_raises_after_keygen nameless_options quiet_world
           "commonName").
  - unfold required_keys. repeat constructor.
  - reflexivity.
Defined.

(** C2, as stated, fails: without a common name the call raises
    [KeyError], which is no error of lemur/exceptions.py, and the generator
    has produced a key by the time it does. *)
Lemma C2_counterexample :
  (service.create_csr nameless_options quiet_world).1
    = Raise (KeyError "commonName") /\
  w_generated_keys quiet_world = [] /\
  w_generated_keys (service.create_csr nameless_options quiet_world).2
    = [ {| key_serial := 0; public_exponent := 65537; key_size := 2048 |} ].
Proof. repeat split. Qed.

(** C3.  For a configuration that supplies the six subject entries (the
    locality under the key ['location']), [create_csr] returns a request
    whose subject is exactly the six attributes in the order common name,
    organization, organizational unit, country, state, locality, signed
    with the returned key, which has 2048 bits and public exponent 65537. *)
Theorem C3_subject_order_and_key (cfg : Options) (w : World)
    (cn o ou c st l : string) :
  opt_fields cfg !! "commonName" = Some cn ->
  opt_fields cfg !! "organization" = Some o ->
  opt_fields cfg !! "organizationalUnit" = Some ou ->
  opt_fields cfg !! "country" = Some c ->
  opt_fields cfg !! "state" = Some st ->
  opt_fields cfg !! "location" = Some l ->
  exists csr pem w',
    service.create_csr cfg w = (Ok (csr, pem), w') /\
    csr_subject (pem_request csr) =
      [ {| oid := OID_COMMON_NAME; value := cn |};
        {| oid := OID_ORGANIZATION_NAME; value := o |};
        {| oid := OID_ORGANIZATIONAL_UNIT_NAME; value := ou |};
        {| oid := OID_COUNTRY_NAME; value := c |};
        {| oid := OID_STATE_OR_PROVINCE_NAME; value := st |};
        {| oid := OID_LOCALITY_NAME; value := l |} ] /\
    csr_key (pem_request csr) = pem_key pem /\
    key_size (pem_key pem) = 2048%Z /\
    public_exponent (pem_key pem) = 65537%Z.
Proof.
  intros H1 H2 H3 H4 H5 H6.
  eexists _, _, _. split; [by apply create_csr_ok|].
  repeat split.
Qed.

Lemma C3_witness :
  exists csr pem w',
    service.create_csr example_options quiet_world = (Ok (csr, pem), w') /\
    csr_subject (pem_request csr) =
      [ {| oid := OID_COMMON_NAME; value := "www.example.com" |};
        {| oid := OID_ORGANIZATION_NAME; value := "Example" |};
        {| oid := OID_ORGANIZATIONAL_UNIT_NAME; value := "Operations" |};
        {| oid := OID_COUNTRY_NAME; value := "US" |};
        {| oid := OID_STATE_OR_PROVINCE_NAME; value := "CA" |};
        {| oid := OID_LOCALITY_NAME; value := "Los Gatos" |} ] /\
    csr_key (pem_request csr) = pem_key pem /\
    key_size (pem_key pem) = 2048%Z /\
    public_exponent (pem_key pem) = 65537%Z.
Proof.
  apply (C3_subject_order_and_key example_options quiet_world);
    reflexivity.
Defined.

(** C8.  When the extensions hold alternative names under ['subAltNames'],
    the request built by [create_csr] carries, after the basic constraints,
    one critical [SubjectAlternativeName] extension whose entries are the
    values of the requested names of type ['DNSName'], in their order.
    Names of any other type raise nothing and do not appear. *)
Theorem C8_only_dns_names_are_added (cfg : Options) (w : World)
    (cn o ou c st l : string) (exts : gmap string ExtensionRequest)
    (req : ExtensionRequest) :
  opt_fields cfg !! "commonName" = Some cn ->
  opt_fields cfg !! "organization" = Some o ->
  opt_fields cfg !! "organizationalUnit" = Some ou ->
  opt_fields cfg !! "country" = Some c ->
  opt_fields cfg !! "state" = Some st ->
  opt_fields cfg !! "location" = Some l ->
  opt_extensions cfg = Some exts ->
  exts !! "subAltNames" = Some req ->
  exists csr pem w',
    service.create_csr cfg w = (Ok (csr, pem), w') /\
    csr_extensions (pem_request csr) =
      [ {| ext_value := BasicConstraints false None; critical := true |};
        {| ext_value :=
             SubjectAlternativeName
               ((DNSName ∘ name_value) <$>
                  base.filter (fun n => nameType n = "DNSName") (names req));
           critical := true |} ].
Proof.
  intros H1 H2 H3 H4 H5 H6 He Hr.
  eexists _, _, _. split; [by apply create_csr_ok|].
  cbn [pem_request csr_extensions]. unfold requested_extensions.
  rewrite He. simpl. by rewrite Hr.
Qed.

Lemma C8_witness :
  exists csr pem w',
    service.create_csr example_options quiet_world = (Ok (csr, pem), w') /\
    csr_extensions (pem_request csr) =
      [ {| ext_value := BasicConstraints false None; critical := true |};
        {| ext_value :=
             SubjectAlternativeName
               [DNSName "www.example.com"; DNSName "example.com"];
           critical := true |} ].
Proof.
  apply (C8_only_dns_names_are_added example_options quiet_world
           "www.example.com" "Example" "Operations" "US" "CA" "Los Gatos"
           {[ "subAltNames" := example_names ]} example_names);
    reflexivity.
Defined.

(** ** The certificate store *)

Lemma get_found (w : World) (i : nat) (c : Certificate) :
  w_certificates w !! i = Some c ->
  service.get i w = (Ok (Some (set_id (Some i) c)), w).
Proof.
  intros H. unfold service.get, database.get, ask. by rewrite H.
Qed.

Lemma update_list_destinations (cert : Certificate)
    (items : option (list nat)) (w : World) :
  w_wiring_failure w "destinations" items = None ->
  database.update_list cert "destinations" items w
  = (Ok (set_destinations
           (database.reconcile (cert_destinations cert) (default [] items))
           cert), w).
Proof.
  intros H. unfold database.update_list, bind, ask. by rewrite H.
Qed.

Lemma update_list_notifications (cert : Certificate)
    (items : option (list nat)) (w : World) :
  w_wiring_failure w "notifications" items = None ->
  database.update_list cert "notifications" items w
  = (Ok (set_notifications
           (database.reconcile (cert_notifications cert) (default [] items))
           cert), w).
Proof.
  intros H. unfold database.update_list, bind, ask. by rewrite H.
Qed.

Lemma update_list_refused (cert : Certificate) (model_attr : string)
    (items : option (list nat)) (w : World) (e : PyExn) :
  w_wiring_failure w model_attr items = Some e ->
  database.update_list cert model_attr items w = (Raise e, w).
Proof.
  intros H. unfold database.update_list, bind, ask. by rewrite H.
Qed.

Lemma commit_known_id (cert : Certificate) (i : nat) (w : World) :
  cert_id cert = Some i ->
  database.commit cert w
  = (Ok (set_id (Some i) cert),
     set_certificates (<[i := set_id (Some i) cert]> (w_certificates w)) w).
Proof. intros H. unfold database.commit. by rewrite H. Qed.

(** *** Set reconciliation *)

Lemma elem_of_reconcile (current requested : list nat) (x : nat) :
  x ∈ database.reconcile current requested <-> x ∈ requested.
Proof.
  unfold database.reconcile.
  rewrite elem_of_app, !list_elem_of_difference, elem_of_remove_dups.
  destruct (decide (x ∈ current)), (decide (x ∈ requested)); tauto.
Qed.

Lemma list_difference_nil_r (l : list nat) : list_difference l [] = l.
Proof.
  induction l as [|a l IH]; simpl; [done|].
  destruct (decide_rel elem_of a []) as [Ha|Ha];
    [by apply elem_of_nil in Ha | by rewrite IH].
Qed.

Lemma list_difference_covered (l k : list nat) :
  (forall x, x ∈ l -> x ∈ k) -> list_difference l k = [].
Proof.
  induction l as [|a l IH]; intros H; simpl; [done|].
  destruct (decide_rel elem_of a k) as [Ha|Ha].
  - apply IH. intros x Hx. apply H. by right.
  - destruct Ha. apply H. by left.
Qed.

Lemma reconcile_idempotent (current requested : list nat) :
  database.reconcile (database.reconcile current requested) requested
  = database.reconcile current requested.
Proof.
  set (r := database.reconcile current requested).
  unfold database.reconcile at 1.
  rewrite (list_difference_covered r requested)
    by (intros x; apply elem_of_reconcile).
  rewrite list_difference_nil_r.
  rewrite (list_difference_covered (remove_dups requested) r).
  - apply app_nil_r.
  - intros x. rewrite elem_of_remove_dups. apply elem_of_reconcile.
Qed.

(** *** update *)

Lemma update_run (w : World) (cert_id : nat) (c : Certificate)
    (owner description : string) (active : bool) (D N : list nat) :
  w_certificates w !! cert_id = Some c ->
  w_wiring_failure w "notifications" (Some N) = None ->
  w_wiring_failure w "destinations" (Some D) = None ->
  service.update cert_id owner description active D N w
  = (Ok (updated cert_id owner description active D N c),
     set_certificates
       (<[cert_id := updated cert_id owner description active D N c]>
          (w_certificates w)) w).
Proof.
  intros Hc HN HD. unfold service.update.
  rewrite (bind_ok _ _ _ _ _ (get_found _ _ _ Hc)).
  rewrite (bind_ok _ _ _ _ _ (update_list_notifications _ _ _ HN)).
  rewrite (bind_ok _ _ _ _ _ (update_list_destinations _ _ _ HD)).
  unfold database.update.
  rewrite (commit_known_id _ cert_id) by reflexivity.
  reflexivity.
Qed.

Lemma updated_id (i : nat) (o de : string) (ac : bool) (D N : list nat)
    (c : Certificate) :
  set_id (Some i) (updated i o de ac D N c) = updated i o de ac D N c.
Proof. destruct c. reflexivity. Qed.

Lemma updated_twice (i : nat) (o de : string) (ac : bool) (D N : list nat)
    (c : Certificate) :
  updated i o de ac D N (updated i o de ac D N c) = updated i o de ac D N c.
Proof.
  destruct c. unfold updated. cbn -[database.reconcile].
  by rewrite !reconcile_idempotent.
Qed.

(** C9.  For a certificate that exists and association lists that the
    collaborators accept, [update] succeeds, and the certificate read back
    afterwards has exactly the destinations [D] and exactly the
    notifications [N] as sets, whatever its associations were before, with
    owner, description and active flag overwritten.  Calling [update] again
    with the same arguments returns the same certificate and leaves the
    world as the first call left it. *)
Theorem C9_update_replaces_associations (w : World) (cert_id : nat)
    (c : Certificate) (owner description : string) (active : bool)
    (D N : list nat) :
  w_certificates w !! cert_id = Some c ->
  w_wiring_failure w "notifications" (Some N) = None ->
  w_wiring_failure w "destinations" (Some D) = None ->
  exists c' w',
    service.update cert_id owner description active D N w = (Ok c', w') /\
    service.get cert_id w' = (Ok (Some c'), w') /\
    (forall x, x ∈ cert_destinations c' <-> x ∈ D) /\
    (forall x, x ∈ cert_notifications c' <-> x ∈ N) /\
    cert_owner c' = Some owner /\
    cert_description c' = Some description /\
    cert_active c' = active /\
    service.update cert_id owner description active D N w' = (Ok c', w').
Proof.
  intros Hc HN HD.
  eexists _, _. split; [apply (update_run _ _ _ _ _ _ _ _ Hc HN HD)|].
  split.
  { erewrite get_found by apply lookup_insert_eq. by rewrite updated_id. }
  split; [intros x; apply elem_of_reconcile|].
  split; [intros x; apply elem_of_reconcile|].
  do 3 (split; [reflexivity|]).
  erewrite update_run; [| apply lookup_insert_eq | exact HN | exact HD ].
  rewrite updated_twice. unfold set_certificates at 1.
  cbn [w_certificates set_certificates].
  rewrite insert_insert_eq. reflexivity.
Qed.

Lemma C9_witness :
  exists c' w',
    service.update 1 "sec@example.com" "rotated" false [7; 8]%nat [3%nat]
      inventory = (Ok c', w') /\
    service.get 1 w' = (Ok (Some c'), w') /\
    (forall x, x ∈ cert_destinations c' <-> x ∈ [7; 8]%nat) /\
    (forall x, x ∈ cert_notifications c' <-> x ∈ [3%nat]) /\
    cert_owner c' = Some "sec@example.com" /\
    cert_description c' = Some "rotated" /\
    cert_active c' = false /\
    service.update 1 "sec@example.com" "rotated" false [7; 8]%nat [3%nat] w'
      = (Ok c', w').
Proof.
  apply (C9_update_replaces_associations inventory 1
           (example_certificate "CA-A" [7%nat] [1%nat]));
    reflexivity.
Defined.

(** *** mint and create *)

Lemma mint_run (w w1 : World) (opts : Options) (authority : Authority)
    (plugin : IssuerPlugin) (csr : CsrPem) (key : KeyPem)
    (body chain : string) :
  opt_authority opts = Some authority ->
  w_plugins w !! plugin_name authority = Some plugin ->
  service.create_csr opts w = (Ok (csr, key), w1) ->
  create_certificate plugin csr
    (set_field "creator" (email (g_user w)) opts) = Ok (body, chain) ->
  service.mint opts w =
    (Ok (minted w authority key body chain, key, chain),
     set_certificates
       (<[fresh (dom (w_certificates w))
            := minted w authority key body chain]> (w_certificates w)) w1).
Proof.
  intros Ha Hp Hcsr Hsign.
  pose proof (create_csr_frame _ _ _ _ Hcsr) as ->.
  unfold service.mint. rewrite Ha. unfold getfield.
  unfold bind at 1. unfold ret at 1.
  unfold plugins.get. unfold bind at 1. unfold bind at 1. unfold ask at 1.
  rewrite Hp. unfold ret at 1.
  unfold bind at 1. rewrite Hcsr.
  unfold bind at 1. unfold ask at 1. cbn [g_user set_generated_keys].
  unfold bind at 1. rewrite Hsign.
  unfold models.Certificate.
  unfold bind at 1. unfold bind at 1. unfold ask at 1. unfold ret at 1.
  unfold bind at 1. unfold ask at 1.
  unfold database.update, database.commit. unfold bind, ret.
  destruct w. reflexivity.
Qed.

(** C1.  Once the plugin has signed the request, [mint] succeeds and the
    certificate it returns is already committed under its id, with body,
    chain, key, authority and requesting user, and with no association:
    [mint] wires none.  If [create] then fails, at the wiring of the
    destinations, at the wiring of the notifications or anywhere else, the
    certificate is still read back under that id with the same body, chain,
    key, authority and user; its notifications are empty and its
    destinations are either empty or the ones [create] had committed
    before the failing step. *)
Theorem C1_signed_certificate_survives_wiring_failure (w w1 : World)
    (opts : Options) (authority : Authority) (plugin : IssuerPlugin)
    (csr : CsrPem) (key : KeyPem) (body chain : string) :
  opt_authority opts = Some authority ->
  w_plugins w !! plugin_name authority = Some plugin ->
  service.create_csr opts w = (Ok (csr, key), w1) ->
  create_certificate plugin csr
    (set_field "creator" (email (g_user w)) opts) = Ok (body, chain) ->
  exists (i : nat) (cert : Certificate) (w2 : World),
    service.mint opts w = (Ok (cert, key, chain), w2) /\
    service.get i w2 = (Ok (Some cert), w2) /\
    cert_body cert = body /\
    cert_chain cert = Some chain /\
    cert_private_key cert = Some key /\
    cert_authority cert = Some authority /\
    cert_user cert = Some (user_id (g_user w)) /\
    cert_destinations cert = [] /\
    cert_notifications cert = [] /\
    forall (e : PyExn) (w3 : World),
      service.create opts w = (Raise e, w3) ->
      exists row,
        service.get i w3 = (Ok (Some row), w3) /\
        cert_body row = body /\
        cert_chain row = Some chain /\
        cert_private_key row = Some key /\
        cert_authority row = Some authority /\
        cert_user row = Some (user_id (g_user w)) /\
        cert_notifications row = [] /\
        (cert_destinations row = [] \/
         cert_destinations row
           = database.reconcile [] (default [] (opt_destinations opts))).
Proof.
  intros Ha Hp Hcsr Hsign.
  pose proof (mint_run _ _ _ _ _ _ _ _ _ Ha Hp Hcsr Hsign) as Hmint.
  set (i := fresh (dom (w_certificates w))) in *.
  set (cert := minted w authority key body chain) in *.
  set (w2 := set_certificates _ w1) in *.
  (* what is read back while the row written by [mint] is in place *)
  assert (Hminted : forall w' : World,
            w_certificates w' = w_certificates w2 ->
            service.get i w' = (Ok (Some cert), w')).
  { intros w' Hw'. unfold service.get, database.get, ask.
    rewrite Hw'. unfold w2. cbn [w_certificates set_certificates].
    by rewrite lookup_insert_eq. }
  exists i, cert, w2. split; [exact Hmint|].
  split; [by apply Hminted|].
  do 7 (split; [reflexivity|]).
  intros e w3. unfold service.create. rewrite (bind_ok _ _ _ _ _ Hmint).
  destruct (opt_fields opts !! "owner") as [owner|] eqn:Eo.
  2:{ rewrite (bind_getitem_missing _ _ _ _ Eo). intros [= _ <-].
      exists cert. split; [by apply Hminted|].
      repeat split; try reflexivity. by left. }
  rewrite (bind_getitem _ _ _ _ _ Eo).
  destruct (w_wiring_failure w2 "destinations" (opt_destinations opts))
    as [e'|] eqn:Ew.
  { rewrite (bind_raise _ _ _ _ _ (update_list_refused _ _ _ _ _ Ew)).
    intros [= _ <-]. exists cert. split; [by apply Hminted|].
    repeat split; try reflexivity. by left. }
  rewrite (bind_ok _ _ _ _ _ (update_list_destinations _ _ _ Ew)).
  unfold database.create.
  match goal with
  | |- context [bind (database.commit ?c) _ _] =>
      rewrite (bind_ok _ _ _ _ _ (commit_known_id c i _ eq_refl))
  end.
  match goal with
  | |- context [set_certificates (<[i := ?r]> _) w2] => set (row := r)
  end.
  set (w3' := set_certificates _ w2).
  (* what is read back once [create] has committed the destinations *)
  assert (Hcreated : forall w' : World,
            w_certificates w' = w_certificates w3' ->
            service.get i w' = (Ok (Some row), w')).
  { intros w' Hw'. unfold service.get, database.get, ask.
    rewrite Hw'. unfold w3'. cbn [w_certificates set_certificates].
    by rewrite lookup_insert_eq. }
  destruct (opt_fields opts !! "description") as [description|] eqn:Ed.
  2:{ rewrite (bind_getitem_missing _ _ _ _ Ed). intros [= _ <-].
      exists row. split; [by apply Hcreated|].
      repeat split; try reflexivity. by right. }
  rewrite (bind_getitem _ _ _ _ _ Ed).
  unfold service.append_to_user, modify.
  unfold bind at 1. unfold bind at 1. unfold ask at 1.
  unfold bind at 1. unfold database.update_user.
  match goal with
  | |- context [bind (database.update_list _ _ _) _ ?w] => set (w4 := w)
  end.
  destruct (w_wiring_failure w4 "notifications" (opt_notifications opts))
    as [e'|] eqn:Ew4.
  { rewrite (bind_raise _ _ _ _ _ (update_list_refused _ _ _ _ _ Ew4)).
    intros [= _ <-]. exists row. split; [by apply Hcreated|].
    repeat split; try reflexivity. by right. }
  rewrite (bind_ok _ _ _ _ _ (update_list_notifications _ _ _ Ew4)).
  unfold database.update, database.commit, bind, ret.
  discriminate.
Qed.

Lemma C1_witness :
  exists (i : nat) (cert : Certificate) (w2 : World),
    service.mint example_options refusing_world
      = (Ok (cert, example_key, "CHAIN"), w2) /\
    service.get i w2 = (Ok (Some cert), w2) /\
    cert_body cert = "BODY" /\
    cert_chain cert = Some "CHAIN" /\
    cert_private_key cert = Some example_key /\
    cert_authority cert = Some test_authority /\
    cert_user cert = Some (user_id (g_user refusing_world)) /\
    cert_destinations cert = [] /\
    cert_notifications cert = [] /\
    forall (e : PyExn) (w3 : World),
      service.create example_options refusing_world = (Raise e, w3) ->
      exists row,
        service.get i w3 = (Ok (Some row), w3) /\
        cert_body row = "BODY" /\
        cert_chain row = Some "CHAIN" /\
        cert_private_key row = Some example_key /\
        cert_authority row = Some test_authority /\
        cert_user row = Some (user_id (g_user refusing_world)) /\
        cert_notifications row = [] /\
        (cert_destinations row = [] \/
         cert_destinations row
           = database.reconcile []
               (default [] (opt_destinations example_options))).
Proof.
  eapply (C1_signed_certificate_survives_wiring_failure refusing_world _
            example_options test_authority test_plugin _ example_key
            "BODY" "CHAIN");
    reflexivity.
Defined.

(** The failure the statement above is about does happen: in a world whose
    destination collaborator refuses the wiring, [create] raises its error,
    and the signed certificate is the row with id 0, without
    associations. *)
Example create_refused_keeps_certificate :
  (service.create example_options refusing_world).1
    = Raise (Lemur (exceptions.Instance exceptions.InvalidDistribution
                      [("field", "cloudfront")])) /\
  w_certificates (service.create example_options refusing_world).2 !! 0%nat
    = Some (minted refusing_world test_authority example_key "BODY" "CHAIN").
Proof. split; reflexivity. Qed.

(** ** stats *)

(** The destination restriction is built and then dropped: the result of
    [stats] is the same whatever destination id is passed, or none. *)
Lemma stats_ignores_destination_id (kwargs : gmap string PyVal)
    (d : PyVal) (w : World) :
  service.stats (<["destination_id" := d]> kwargs) w
  = service.stats (delete "destination_id" kwargs) w.
Proof.
  unfold service.stats. cbv zeta.
  rewrite !(lookup_insert_ne kwargs "destination_id") by done.
  rewrite !(lookup_delete_ne kwargs "destination_id") by done.
  reflexivity.
Qed.

(** C6 at a failing input.  Of the three certificates of the inventory
    only the first belongs to destination 7, and it is issued by CA-A.
    Asked for the counts per issuer within destination 7, [stats] counts
    all three certificates; asked for the expiring certificates of
    destination 7 that have a listener, it counts all three again. *)
Theorem C6_stats_counts_other_destinations :
  (database.all_ [service.in_destination (VInt 7)] inventory).1
    = Ok [set_id (Some 1%nat) (example_certificate "CA-A" [7%nat] [1%nat])] /\
  (service.stats (stats_kwargs "issuer") inventory).1
    = Ok {| service.labels := [VStr "CA-A"; VStr "CA-B"];
            service.values := [2; 1]%nat |} /\
  (service.stats (<["active" := VStr "true"]> (stats_kwargs "not_after"))
     inventory).1
    = Ok {| service.labels := [VStr "CA-A"; VStr "CA-B"];
            service.values := [2; 1]%nat |}.
Proof. repeat split. Qed.

(** * Further properties *)

(** ** render and stats: arguments, filters and effects *)

Lemma bind_pop_missing {B} key (args : gmap string PyVal)
    (k : _ -> Py B) w :
  args !! key = None ->
  bind (service.pop key args) k w = (Raise (KeyError key), w).
Proof. intros H. unfold bind, service.pop. rewrite H. reflexivity. Qed.

(** X1.  [render] pops [time_range], [destination_id], [show] and [filter]
    without a default: when one of them is missing from the arguments the
    call raises [KeyError] for a missing one and touches nothing.  (Only
    [notification_id] is popped with a default.) *)
Theorem render_missing_argument_raises_KeyError (args : gmap string PyVal)
    (w : World) (key : string) :
  key ∈ render_required ->
  args !! key = None ->
  exists key',
    key' ∈ render_required /\
    args !! key' = None /\
    service.render args w = (Raise (KeyError key'), w).
Proof.
  intros Hin Hnone. unfold service.render.
  destruct (args !! "time_range") as [tr|] eqn:Et.
  2:{ exists "time_range". split; [repeat constructor|]. split; [done|].
      by rewrite bind_pop_missing. }
  erewrite (bind_pop "time_range") by eassumption. cbv beta iota.
  destruct (args !! "destination_id") as [d|] eqn:Ed.
  2:{ exists "destination_id". split; [repeat constructor|].
      split; [done|].
      rewrite bind_pop_missing; [done|]. by rewrite lookup_delete_ne. }
  erewrite (bind_pop "destination_id")
    by (rewrite !lookup_delete_ne by done; eassumption).
  cbv beta iota. unfold service.pop_default.
  destruct (args !! "show") as [sh|] eqn:Es.
  2:{ exists "show". split; [repeat constructor|]. split; [done|].
      rewrite bind_pop_missing; [done|]. by rewrite !lookup_delete_ne. }
  erewrite (bind_pop "show")
    by (rewrite !lookup_delete_ne by done; eassumption).
  cbv beta iota.
  destruct (args !! "filter") as [f|] eqn:Ef.
  2:{ exists "filter". split; [repeat constructor|]. split; [done|].
      rewrite bind_pop_missing; [done|]. by rewrite !lookup_delete_ne. }
  exfalso. unfold render_required in Hin.
  rewrite !elem_of_cons, elem_of_nil in Hin.
  destruct Hin as [-> | [-> | [-> | [-> | []]]]]; congruence.
Qed.

Lemma render_missing_argument_witness :
  exists key',
    key' ∈ render_required /\
    delete "show" (render_args "owner;ops") !! key' = None /\
    service.render (delete "show" (render_args "owner;ops")) quiet_world
      = (Raise (KeyError key'), quiet_world).
Proof.
  apply (render_missing_argument_raises_KeyError
           (delete "show" (render_args "owner;ops")) quiet_world "show").
  - unfold render_required. repeat constructor.
  - reflexivity.
Defined.

(** X2.  Without a free-text filter the query that [render] pages holds,
    in this order and nothing else: the visibility criterion when [show] is
    set, the destination membership when [destination_id] is set, the
    notification membership when [notification_id] is set, and the expiry
    window from today to [time_range] weeks ahead when [time_range] is a
    non-zero number.  A missing [notification_id] counts as not set.  When
    the date that many weeks ahead is outside the years 1 to 9999, the
    call raises [OverflowError] instead and pages nothing. *)
Theorem render_without_filter (args : gmap string PyVal) (w : World)
    (tr d sh filt : PyVal) :
  args !! "time_range" = Some tr ->
  args !! "destination_id" = Some d ->
  args !! "show" = Some sh ->
  args !! "filter" = Some filt ->
  truthy filt = false ->
  (tr = VNone \/ exists n, tr = VInt n) ->
  service.render args w =
    (if window_exists (w_today w) tr
     then
       Ok {| page_query :=
               Select (Entity TCertificate)
                 ((if truthy sh
                   then [visibility_criterion (user_id (g_user w))]
                   else []) ++
                  (if truthy d
                   then [Any "destinations" (Eq (TDestination, "id") d)]
                   else []) ++
                  (if truthy (default VNone (args !! "notification_id"))
                   then [Any "notifications"
                           (Eq (TNotification, "id")
                               (default VNone (args !! "notification_id")))]
                   else []) ++
                  window_criteria (w_today w) tr);
             page_args := remaining_args args |}
     else Raise OverflowError, w).
Proof.
  intros Ht Hd Hs Hf Hfalsy Htr.
  render_pops args. rewrite Hfalsy.
  unfold service.replace_weeks, service.weeks, database.sort_and_page.
  unfold bind, ask, ret, raise.
  destruct Htr as [-> | [n ->]];
    cbn [truthy window_criteria window_exists]; cbv beta zeta.
  - destruct (truthy sh), (truthy d),
      (truthy (default VNone (args !! "notification_id"))); reflexivity.
  - destruct (n =? 0)%Z; cbn [negb orb];
      [|destruct (date_exists (w_today w + 7 * n))];
      destruct (truthy sh), (truthy d),
        (truthy (default VNone (args !! "notification_id"))); reflexivity.
Qed.

Lemma render_without_filter_witness :
  service.render (render_args "") quiet_world =
    (Ok {| page_query :=
             Select (Entity TCertificate)
               [ visibility_criterion 1;
                 Any "destinations" (Eq (TDestination, "id") (VInt 7));
                 Any "notifications" (Eq (TNotification, "id") (VInt 3));
                 Le (TCertificate, "not_after") (VDate 56);
                 Ge (TCertificate, "not_after") (VDate 0) ];
           page_args := remaining_args (render_args "") |}, quiet_world) /\
  service.render (<["time_range" := VInt 1000000]> (render_args ""))
    quiet_world
  = (Raise OverflowError, quiet_world).
Proof.
  split.
  - apply (render_without_filter (render_args "") quiet_world
             (VInt 8) (VInt 7) (VBool true) (VStr ""));
      try reflexivity.
    right. by exists 8%Z.
  - apply (render_without_filter
             (<["time_range" := VInt 1000000]> (render_args "")) quiet_world
             (VInt 1000000) (VInt 7) (VBool true) (VStr ""));
      try reflexivity.
    right. by exists 1000000%Z.
Defined.

(** *** Read-only computations *)

Lemma read_only_ret {A} (a : A) : read_only (ret a).
Proof. by intros w. Qed.

Lemma read_only_raise {A} (e : PyExn) : read_only (@raise A e).
Proof. by intros w. Qed.

Lemma read_only_ask {A} (f : World -> A) : read_only (ask f).
Proof. by intros w. Qed.

Lemma read_only_bind {A B} (m : Py A) (k : A -> Py B) :
  read_only m -> (forall a, read_only (k a)) -> read_only (bind m k).
Proof.
  intros Hm Hk w. unfold bind. specialize (Hm w).
  destruct (m w) as [[a|e] w']; simpl in Hm; subst w'; [apply Hk | done].
Qed.

Lemma read_only_pop (key : string) (args : gmap string PyVal) :
  read_only (service.pop key args).
Proof.
  unfold service.pop.
  destruct (args !! key); [apply read_only_ret | apply read_only_raise].
Qed.

Lemma read_only_index (terms : list string) (i : nat) :
  read_only (service.index terms i).
Proof.
  unfold service.index.
  destruct (terms !! i); [apply read_only_ret | apply read_only_raise].
Qed.

Lemma set_log_same (w : World) : set_log (w_log w) w = w.
Proof. by destruct w. Qed.

(** Raising [AttrNotFound] writes no log entry, so the generic filter is
    read-only even when it fails. *)
Lemma read_only_filter (q : Query) (terms : list string) :
  read_only (database.filter q terms).
Proof.
  unfold database.filter.
  destruct terms as [|field values]; [apply read_only_raise|].
  apply read_only_bind; [apply read_only_ask|]. intros cols.
  case_bool_decide; [apply read_only_ret|].
  intros w. unfold raise_lemur. cbn. apply set_log_same.
Qed.

Lemma read_only_getattr (name : PyVal) :
  read_only (service.getattr_Certificate name).
Proof.
  unfold service.getattr_Certificate.
  destruct name; try apply read_only_raise.
  repeat match goal with
         | |- read_only (if ?b then _ else _) => destruct b
         end;
    first [apply read_only_ret | apply read_only_raise].
Qed.

Lemma read_only_group_count (key counted : Certificate -> PyVal)
    (query : database.RowQuery) :
  read_only (database.group_count key counted query).
Proof.
  unfold database.group_count, database.all_.
  apply read_only_bind; [apply read_only_ask | intros; apply read_only_ret].
Qed.

Ltac read_only_step :=
  first
    [ apply read_only_ret | apply read_only_raise | apply read_only_ask
    | apply read_only_pop | apply read_only_index | apply read_only_filter
    | apply read_only_getattr | apply read_only_group_count
    | apply read_only_bind; [| intros ?]
    | match goal with
      | |- read_only (if ?b then _ else _) => destruct b
      | |- read_only (match ?x with _ => _ end) => destruct x
      end
    | progress unfold service.str_split, service.weeks,
        database.sort_and_page, service.pop_default ].

(** X3.  [render] and [stats] are read-only: whatever the arguments, and
    whether they return or raise, the certificate and user tables, the
    generated keys, the log and the current user are afterwards as they
    were before the call. *)
Theorem render_and_stats_are_read_only (args kwargs : gmap string PyVal) :
  read_only (service.render args) /\ read_only (service.stats kwargs).
Proof.
  split.
  - unfold service.render. repeat read_only_step.
  - unfold service.stats. cbv zeta. repeat read_only_step.
Qed.

(** X4.  A free-text filter that is a single term, with no semicolon,
    raises [IndexError] as soon as it selects a special handling: when it
    is ['issuer'] or ['destination'], and also when it merely contains
    ['active'], as ['inactive'] does. *)
Theorem render_single_special_term_raises (args : gmap string PyVal)
    (w : World) (tr d sh : PyVal) (f : string) :
  args !! "time_range" = Some tr ->
  args !! "destination_id" = Some d ->
  args !! "show" = Some sh ->
  args !! "filter" = Some (VStr f) ->
  length (split ";" f) = 1%nat ->
  "issuer" ∈ split ";" f \/ "destination" ∈ split ";" f \/
    contains "active" f = true ->
  service.render args w = (Raise IndexError, w).
Proof.
  intros Ht Hd Hs Hf Hlen Hsp.
  assert (Hne : f <> "").
  { intros ->. destruct Hsp as [H|[H|H]]; simpl in H;
      rewrite ?list_elem_of_singleton in H; discriminate. }
  render_pops args. rewrite (truthy_VStr _ Hne).
  unfold service.str_split. erewrite bind_ok by reflexivity.
  assert (H1 : split ";" f !! 1%nat = None).
  { apply lookup_ge_None. lia. }
  unfold service.index. rewrite H1.
  case_bool_decide; [reflexivity|].
  case_bool_decide; [reflexivity|].
  unfold service.str_contains.
  destruct Hsp as [H'|[H'|H']]; try done.
  rewrite H'. reflexivity.
Qed.

Lemma render_single_special_term_witness :
  service.render (render_args "inactive") quiet_world
    = (Raise IndexError, quiet_world).
Proof.
  apply (render_single_special_term_raises (render_args "inactive")
           quiet_world (VInt 8) (VInt 7) (VBool true) "inactive");
    try reflexivity.
  right. right. reflexivity.
Defined.

(** X5.  Without a ['metric'] argument, or with one that is not a string,
    [stats] raises [TypeError] at [getattr] and returns no statistics; no
    query has been run. *)
Theorem stats_without_metric_raises_TypeError (kwargs : gmap string PyVal)
    (w : World) :
  is_str (default VNone (kwargs !! "metric")) = false ->
  service.stats kwargs w = (Raise TypeError, w).
Proof.
  intros Hm. unfold service.stats. cbv zeta.
  destruct (default VNone (kwargs !! "metric")) as [| | |name| |];
    try discriminate Hm;
    (destruct (decide _) as [D|_]; [discriminate D|]); reflexivity.
Qed.

Lemma stats_without_metric_witness :
  service.stats (<["active" := VStr "true"]> ∅) inventory
  = (Raise TypeError, inventory).
Proof.
  apply (stats_without_metric_raises_TypeError
           (<["active" := VStr "true"]> ∅) inventory).
  reflexivity.
Defined.

(** X6.  For the metric ['not_after'] the result of [stats] does not depend
    on [active]: the counts per issuer of the certificates expiring within
    32 weeks are taken over every certificate, with or without a
    listener. *)
Theorem stats_not_after_is_independent_of_active
    (kwargs : gmap string PyVal) (a : PyVal) (w : World) :
  kwargs !! "metric" = Some (VStr "not_after") ->
  service.stats (<["active" := a]> kwargs) w
  = service.stats (delete "active" kwargs) w.
Proof.
  intros Hm. unfold service.stats. cbv zeta.
  rewrite !(lookup_insert_ne kwargs "active") by done.
  rewrite !(lookup_delete_ne kwargs "active") by done.
  rewrite Hm. reflexivity.
Qed.

Lemma stats_not_after_witness :
  service.stats (<["active" := VStr "true"]> (stats_kwargs "not_after"))
    inventory
  = service.stats (delete "active" (stats_kwargs "not_after")) inventory.
Proof.
  apply (stats_not_after_is_independent_of_active
           (stats_kwargs "not_after") (VStr "true") inventory).
  reflexivity.
Defined.

(** ** create_csr: outcomes and format *)

(** X7.  Every call of [create_csr], whether it returns or raises,
    generates exactly one RSA key of 2048 bits with public exponent 65537,
    and has no other effect. *)
Theorem create_csr_generates_one_key (cfg : Options) (w : World) :
  (service.create_csr cfg w).2
  = set_generated_keys (w_generated_keys w ++ [next_key w]) w.
Proof.
  destruct (service.create_csr cfg w) as [r w'] eqn:E.
  exact (create_csr_frame _ _ _ _ E).
Qed.


(** X10.  A request returned by [create_csr] is signed with SHA-256 by the
    key that is returned with it, the key just generated; the key comes in
    the traditional OpenSSL container, unencrypted; and the first extension
    of the request is a critical [BasicConstraints] with [ca] false and no
    path length.  Without a ['subAltNames'] entry it is the only extension,
    whatever other extension kinds are asked for. *)
Theorem create_csr_output_format (cfg : Options) (w : World)
    (cn o ou c st l : string) :
  opt_fields cfg !! "commonName" = Some cn ->
  opt_fields cfg !! "organization" = Some o ->
  opt_fields cfg !! "organizationalUnit" = Some ou ->
  opt_fields cfg !! "country" = Some c ->
  opt_fields cfg !! "state" = Some st ->
  opt_fields cfg !! "location" = Some l ->
  exists csr pem,
    (service.create_csr cfg w).1 = Ok (csr, pem) /\
    csr_hash (pem_request csr) = SHA256 /\
    csr_key (pem_request csr) = pem_key pem /\
    pem_key pem = next_key w /\
    pem_format pem = TraditionalOpenSSL /\
    pem_encrypted pem = false /\
    head (csr_extensions (pem_request csr))
      = Some {| ext_value := BasicConstraints false None;
                critical := true |} /\
    (default ∅ (opt_extensions cfg) !! "subAltNames" = None ->
     csr_extensions (pem_request csr)
       = [ {| ext_value := BasicConstraints false None;
              critical := true |} ]).
Proof.
  intros H1 H2 H3 H4 H5 H6.
  eexists _, _. rewrite (create_csr_ok cfg w cn o ou c st l) by done.
  split; [reflexivity|]. cbn.
  repeat split. intros Hno. unfold requested_extensions. by rewrite Hno.
Qed.

Lemma create_csr_output_format_witness :
  exists csr pem,
    (service.create_csr orphan_options quiet_world).1 = Ok (csr, pem) /\
    csr_hash (pem_request csr) = SHA256 /\
    csr_key (pem_request csr) = pem_key pem /\
    pem_key pem = next_key quiet_world /\
    pem_format pem = TraditionalOpenSSL /\
    pem_encrypted pem = false /\
    head (csr_extensions (pem_request csr))
      = Some {| ext_value := BasicConstraints false None;
                critical := true |} /\
    (default ∅ (opt_extensions orphan_options) !! "subAltNames" = None ->
     csr_extensions (pem_request csr)
       = [ {| ext_value := BasicConstraints false None;
              critical := true |} ]).
Proof.
  apply (create_csr_output_format orphan_options quiet_world
           "www.example.com" "Example" "Operations" "US" "CA" "Los Gatos");
    reflexivity.
Defined.

(** X11.  When ['subAltNames'] is present but none of its names is of type
    ['DNSName'], the empty list included, the request still carries a
    critical [SubjectAlternativeName] extension, with no names in it. *)
Theorem create_csr_adds_empty_alternative_names (cfg : Options) (w : World)
    (cn o ou c st l : string) (exts : gmap string ExtensionRequest)
    (req : ExtensionRequest) :
  opt_fields cfg !! "commonName" = Some cn ->
  opt_fields cfg !! "organization" = Some o ->
  opt_fields cfg !! "organizationalUnit" = Some ou ->
  opt_fields cfg !! "country" = Some c ->
  opt_fields cfg !! "state" = Some st ->
  opt_fields cfg !! "location" = Some l ->
  opt_extensions cfg = Some exts ->
  exts !! "subAltNames" = Some req ->
  (forall n, n ∈ names req -> nameType n <> "DNSName") ->
  exists csr pem,
    (service.create_csr cfg w).1 = Ok (csr, pem) /\
    csr_extensions (pem_request csr) =
      [ {| ext_value := BasicConstraints false None; critical := true |};
        {| ext_value := SubjectAlternativeName []; critical := true |} ].
Proof.
  intros H1 H2 H3 H4 H5 H6 He Hr Hnone.
  eexists _, _. rewrite (create_csr_ok cfg w cn o ou c st l) by done.
  split; [reflexivity|].
  cbn [pem_request csr_extensions]. unfold requested_extensions.
  rewrite He. simpl. rewrite Hr.
  assert (Hf : base.filter (fun n => nameType n = "DNSName") (names req)
               = []).
  { induction (names req) as [|n ns IH]; [done|].
    rewrite filter_cons, decide_False by (apply Hnone; left).
    apply IH. intros m Hm. apply Hnone. by right. }
  by rewrite Hf.
Qed.

Lemma create_csr_adds_empty_alternative_names_witness :
  exists csr pem,
    (service.create_csr address_options quiet_world).1 = Ok (csr, pem) /\
    csr_extensions (pem_request csr) =
      [ {| ext_value := BasicConstraints false None; critical := true |};
        {| ext_value := SubjectAlternativeName []; critical := true |} ].
Proof.
  apply (create_csr_adds_empty_alternative_names address_options quiet_world
           "www.example.com" "Example" "Operations" "US" "CA" "Los Gatos"
           {[ "subAltNames" :=
                {| names := [ {| nameType := "IPAddress";
                                 name_value := "10.0.0.1" |} ] |} ]}
           {| names := [ {| nameType := "IPAddress";
                            name_value := "10.0.0.1" |} ] |});
    try reflexivity.
  intros n Hn. apply list_elem_of_singleton in Hn. subst n. discriminate.
Defined.

(** ** mint and create: every outcome *)

Lemma mint_no_authority (opts : Options) (w : World) :
  opt_authority opts = None ->
  service.mint opts w = (Raise (KeyError "authority"), w).
Proof. intros H. unfold service.mint. rewrite H. reflexivity. Qed.

Lemma mint_unknown_plugin (opts : Options) (w : World) (a : Authority) :
  opt_authority opts = Some a ->
  w_plugins w !! plugin_name a = None ->
  service.mint opts w
  = (Raise (Lemur (exceptions.Instance exceptions.UnknownProvider [])), w).
Proof.
  intros Ha Hp. unfold service.mint. rewrite Ha. unfold getfield.
  unfold bind at 1. unfold ret at 1.
  unfold plugins.get. unfold bind at 1. unfold bind at 1. unfold ask at 1.
  rewrite Hp. unfold raise_lemur.
  change (exceptions.construct exceptions.UnknownProvider
            [plugin_name a] (w_log w))
    with (Some (exceptions.Instance exceptions.UnknownProvider [],
                w_log w)).
  cbv beta iota. by rewrite set_log_same.
Qed.

Lemma mint_csr_failure (opts : Options) (w w1 : World) (a : Authority)
    (p : IssuerPlugin) (e : PyExn) :
  opt_authority opts = Some a ->
  w_plugins w !! plugin_name a = Some p ->
  service.create_csr opts w = (Raise e, w1) ->
  service.mint opts w = (Raise e, w1).
Proof.
  intros Ha Hp Hcsr. unfold service.mint. rewrite Ha. unfold getfield.
  unfold bind at 1. unfold ret at 1.
  unfold plugins.get. unfold bind at 1. unfold bind at 1. unfold ask at 1.
  rewrite Hp. unfold ret at 1.
  unfold bind at 1. by rewrite Hcsr.
Qed.

Lemma mint_signing_failure (opts : Options) (w w1 : World) (a : Authority)
    (p : IssuerPlugin) (csr : CsrPem) (key : KeyPem) (e : PyExn) :
  opt_authority opts = Some a ->
  w_plugins w !! plugin_name a = Some p ->
  service.create_csr opts w = (Ok (csr, key), w1) ->
  create_certificate p csr (set_field "creator" (email (g_user w)) opts)
    = Raise e ->
  service.mint opts w = (Raise e, w1).
Proof.
  intros Ha Hp Hcsr Hsign.
  pose proof (create_csr_frame _ _ _ _ Hcsr) as ->.
  unfold service.mint. rewrite Ha. unfold getfield.
  unfold bind at 1. unfold ret at 1.
  unfold plugins.get. unfold bind at 1. unfold bind at 1. unfold ask at 1.
  rewrite Hp. unfold ret at 1.
  unfold bind at 1. rewrite Hcsr.
  unfold bind at 1. unfold ask at 1. cbn [g_user set_generated_keys].
  unfold bind at 1. by rewrite Hsign.
Qed.

(** The outcomes of [mint]: it raises and leaves the certificate table as
    it was, or it commits the minted certificate under a fresh id. *)
Lemma mint_cases (opts : Options) (w : World) :
  (exists e w', service.mint opts w = (Raise e, w') /\
     w_certificates w' = w_certificates w) \/
  (exists a key body chain w1,
     service.mint opts w =
       (Ok (minted w a key body chain, key, chain),
        set_certificates
          (<[fresh (dom (w_certificates w)) := minted w a key body chain]>
             (w_certificates w)) w1) /\
     w1 = set_generated_keys (w_generated_keys w ++ [next_key w]) w).
Proof.
  destruct (opt_authority opts) as [a|] eqn:Ha.
  2:{ left. eexists _, _. split; [by apply mint_no_authority|]. done. }
  destruct (w_plugins w !! plugin_name a) as [p|] eqn:Hp.
  2:{ left. eexists _, _. split; [by eapply mint_unknown_plugin|]. done. }
  destruct (service.create_csr opts w) as [[[csr key]|e] w1] eqn:Hcsr.
  2:{ left. eexists _, _. split; [by eapply mint_csr_failure|].
      by rewrite (create_csr_frame _ _ _ _ Hcsr). }
  destruct (create_certificate p csr
              (set_field "creator" (email (g_user w)) opts))
    as [[body chain]|e] eqn:Hsign.
  2:{ left. eexists _, _. split; [by eapply mint_signing_failure|].
      by rewrite (create_csr_frame _ _ _ _ Hcsr). }
  right. exists a, key, body, chain, w1. split.
  - by eapply mint_run.
  - exact (create_csr_frame _ _ _ _ Hcsr).
Qed.

(** X12.  [mint] fails fast: without an ['authority'] entry it raises
    [KeyError], and with an authority whose plugin is not registered it
    raises the unknown-provider error; in both cases before any key is
    generated and with the world untouched. *)
Theorem mint_fails_before_key_generation (opts : Options) (w : World) :
  (opt_authority opts = None ->
   service.mint opts w = (Raise (KeyError "authority"), w)) /\
  (forall a,
     opt_authority opts = Some a ->
     w_plugins w !! plugin_name a = None ->
     service.mint opts w
     = (Raise (Lemur (exceptions.Instance exceptions.UnknownProvider [])),
        w)).
Proof.
  split.
  - apply mint_no_authority.
  - intros a. apply mint_unknown_plugin.
Qed.

Lemma mint_fails_before_key_generation_witness :
  service.mint orphan_options quiet_world
    = (Raise (KeyError "authority"), quiet_world) /\
  service.mint stray_options quiet_world
    = (Raise (Lemur (exceptions.Instance exceptions.UnknownProvider [])),
       quiet_world).
Proof.
  split.
  - apply (mint_fails_before_key_generation orphan_options quiet_world).
    reflexivity.
  - eapply (mint_fails_before_key_generation stray_options quiet_world);
      reflexivity.
Defined.

(** X13.  When the plugin's signing call raises, [mint] raises the same
    exception unchanged; no certificate is recorded, and the key generated
    for the request is not kept in any table. *)
Theorem mint_propagates_signing_failure (opts : Options) (w w1 : World)
    (a : Authority) (p : IssuerPlugin) (csr : CsrPem) (key : KeyPem)
    (e : PyExn) :
  opt_authority opts = Some a ->
  w_plugins w !! plugin_name a = Some p ->
  service.create_csr opts w = (Ok (csr, key), w1) ->
  create_certificate p csr (set_field "creator" (email (g_user w)) opts)
    = Raise e ->
  service.mint opts w = (Raise e, w1) /\
  w_certificates w1 = w_certificates w /\
  w_users w1 = w_users w.
Proof.
  intros Ha Hp Hcsr Hsign.
  split; [by eapply mint_signing_failure|].
  by rewrite (create_csr_frame _ _ _ _ Hcsr).
Qed.

Lemma mint_propagates_signing_failure_witness :
  service.mint example_options unpaid_world
    = (Raise (Lemur (exceptions.Instance exceptions.IssuerPaymentRequired
                       [("message", "no funds")])),
       set_generated_keys [next_key unpaid_world] unpaid_world) /\
  w_certificates (set_generated_keys [next_key unpaid_world] unpaid_world)
    = w_certificates unpaid_world /\
  w_users (set_generated_keys [next_key unpaid_world] unpaid_world)
    = w_users unpaid_world.
Proof.
  eapply (mint_propagates_signing_failure example_options unpaid_world _
            test_authority unpaid_plugin);
    reflexivity.
Defined.

Lemma fresh_id_unused (m : gmap nat Certificate) (j : nat)
    (c : Certificate) :
  m !! j = Some c -> j <> fresh (dom m).
Proof.
  intros Hj ->. apply (is_fresh (dom m)). apply elem_of_dom. eauto.
Qed.

(** The certificate table after [create], whatever its outcome: as before,
    or with one row more under a fresh id. *)
Lemma create_store (opts : Options) (w : World) :
  w_certificates (service.create opts w).2 = w_certificates w \/
  exists row,
    w_certificates (service.create opts w).2
    = <[fresh (dom (w_certificates w)) := row]> (w_certificates w).
Proof.
  unfold service.create.
  destruct (mint_cases opts w)
    as [(e & w' & Hm & Hc)|(a & key & body & chain & w1 & Hm & Hw1)].
  { rewrite (bind_raise _ _ _ _ _ Hm). by left. }
  rewrite (bind_ok _ _ _ _ _ Hm). right.
  set (i := fresh (dom (w_certificates w))) in *.
  set (cert := minted w a key body chain) in *.
  set (w2 := set_certificates _ w1) in *.
  assert (Hw2 : w_certificates w2 = <[i := cert]> (w_certificates w)).
  { unfold w2. rewrite Hw1. reflexivity. }
  destruct (opt_fields opts !! "owner") as [owner|] eqn:Eo.
  2:{ rewrite (bind_getitem_missing _ _ _ _ Eo). eauto. }
  rewrite (bind_getitem _ _ _ _ _ Eo).
  destruct (w_wiring_failure w2 "destinations" (opt_destinations opts))
    as [e'|] eqn:Ew.
  { rewrite (bind_raise _ _ _ _ _ (update_list_refused _ _ _ _ _ Ew)).
    eauto. }
  rewrite (bind_ok _ _ _ _ _ (update_list_destinations _ _ _ Ew)).
  unfold database.create.
  match goal with
  | |- context [bind (database.commit ?c) _ _] =>
      rewrite (bind_ok _ _ _ _ _ (commit_known_id c i _ eq_refl))
  end.
  match goal with
  | |- context [set_certificates (<[i := ?r]> _) w2] => set (row := r)
  end.
  set (w3 := set_certificates _ w2).
  assert (Hw3 : w_certificates w3 = <[i := row]> (w_certificates w)).
  { unfold w3. cbn [w_certificates set_certificates].
    rewrite Hw2. apply insert_insert_eq. }
  destruct (opt_fields opts !! "description") as [description|] eqn:Ed.
  2:{ rewrite (bind_getitem_missing _ _ _ _ Ed). eauto. }
  rewrite (bind_getitem _ _ _ _ _ Ed).
  unfold service.append_to_user, modify.
  unfold bind at 1. unfold bind at 1. unfold ask at 1.
  unfold bind at 1. unfold database.update_user.
  match goal with
  | |- context [bind (database.update_list _ _ _) _ ?w] => set (w4 := w)
  end.
  assert (Hw4 : w_certificates w4 = <[i := row]> (w_certificates w))
    by exact Hw3.
  destruct (w_wiring_failure w4 "notifications" (opt_notifications opts))
    as [e'|] eqn:Ew4.
  { rewrite (bind_raise _ _ _ _ _ (update_list_refused _ _ _ _ _ Ew4)).
    eauto. }
  rewrite (bind_ok _ _ _ _ _ (update_list_notifications _ _ _ Ew4)).
  unfold database.update.
  match goal with
  | |- context [bind (database.commit ?c) _ _] =>
      rewrite (bind_ok _ _ _ _ _ (commit_known_id c i _ eq_refl))
  end.
  unfold ret. cbn [snd w_certificates set_certificates].
  eexists. rewrite Hw4. apply insert_insert_eq.
Qed.

(** X14.  [create] never changes or removes a certificate that is already
    recorded: whatever the options and whether it returns or raises at any
    step, every existing row reads afterwards as before. *)
Theorem create_preserves_existing_certificates (opts : Options) (w : World)
    (j : nat) (c : Certificate) :
  w_certificates w !! j = Some c ->
  w_certificates (service.create opts w).2 !! j = Some c.
Proof.
  intros Hj. destruct (create_store opts w) as [->|[row ->]]; [done|].
  rewrite lookup_insert_ne; [done|].
  intros E. by apply (fresh_id_unused _ _ _ Hj).
Qed.

Lemma create_preserves_existing_certificates_witness :
  w_certificates (service.create example_options refusing_inventory).2
    !! 2%nat
  = Some (example_certificate "CA-B" [] []).
Proof.
  apply (create_preserves_existing_certificates example_options
           refusing_inventory 2).
  reflexivity.
Defined.

(** X15.  When signing succeeds, owner and description are given and both
    wirings are accepted, [create] returns a certificate recorded under an
    id that was free before, with the signed body and chain, the generated
    key, the authority, the requesting user, the owner and the description
    asked for, and exactly the requested destinations and notifications;
    the id is appended to the caller's certificates and the caller is
    committed with it. *)
Theorem create_records_the_request (w w1 : World) (opts : Options)
    (authority : Authority) (plugin : IssuerPlugin) (csr : CsrPem)
    (key : KeyPem) (body chain owner description : string) :
  opt_authority opts = Some authority ->
  w_plugins w !! plugin_name authority = Some plugin ->
  service.create_csr opts w = (Ok (csr, key), w1) ->
  create_certificate plugin csr
    (set_field "creator" (email (g_user w)) opts) = Ok (body, chain) ->
  opt_fields opts !! "owner" = Some owner ->
  opt_fields opts !! "description" = Some description ->
  w_wiring_failure w "destinations" (opt_destinations opts) = None ->
  w_wiring_failure w "notifications" (opt_notifications opts) = None ->
  exists (i : nat) (cert : Certificate) (w' : World),
    service.create opts w = (Ok cert, w') /\
    w_certificates w !! i = None /\
    service.get i w' = (Ok (Some cert), w') /\
    cert_id cert = Some i /\
    cert_body cert = body /\
    cert_chain cert = Some chain /\
    cert_private_key cert = Some key /\
    cert_authority cert = Some authority /\
    cert_user cert = Some (user_id (g_user w)) /\
    cert_owner cert = Some owner /\
    cert_description cert = Some description /\
    (forall x, x ∈ cert_destinations cert <->
               x ∈ default [] (opt_destinations opts)) /\
    (forall x, x ∈ cert_notifications cert <->
               x ∈ default [] (opt_notifications opts)) /\
    certificates (g_user w') = certificates (g_user w) ++ [i] /\
    w_users w' !! user_id (g_user w) = Some (g_user w').
Proof.
  intros Ha Hp Hcsr Hsign Ho Hd Hwd Hwn.
  pose proof (mint_run _ _ _ _ _ _ _ _ _ Ha Hp Hcsr Hsign) as Hmint.
  pose proof (create_csr_frame _ _ _ _ Hcsr) as Hw1.
  set (i := fresh (dom (w_certificates w))) in *.
  set (cert := minted w authority key body chain) in *.
  set (w2 := set_certificates _ w1) in *.
  assert (Hf2 : w_wiring_failure w2 = w_wiring_failure w)
    by (unfold w2; rewrite Hw1; reflexivity).
  exists i. eexists _, _.
  split.
  { unfold service.create. rewrite (bind_ok _ _ _ _ _ Hmint).
    rewrite (bind_getitem _ _ _ _ _ Ho).
    rewrite (bind_ok _ _ _ _ _ (update_list_destinations _ _ _
               ltac:(rewrite Hf2; exact Hwd))).
    unfold database.create.
    match goal with
    | |- context [bind (database.commit ?c) _ _] =>
        rewrite (bind_ok _ _ _ _ _ (commit_known_id c i _ eq_refl))
    end.
    rewrite (bind_getitem _ _ _ _ _ Hd).
    unfold service.append_to_user, modify.
    unfold bind at 1. unfold bind at 1. unfold ask at 1.
    unfold bind at 1. unfold database.update_user.
    match goal with
    | |- context [bind (database.update_list _ _ _) _ ?w] => set (w4 := w)
    end.
    assert (Hf4 : w_wiring_failure w4 = w_wiring_failure w) by exact Hf2.
    rewrite (bind_ok _ _ _ _ _ (update_list_notifications _ _ _
               ltac:(rewrite Hf4; exact Hwn))).
    unfold database.update.
    match goal with
    | |- context [bind (database.commit ?c) _ _] =>
        rewrite (bind_ok _ _ _ _ _ (commit_known_id c i _ eq_refl))
    end.
    unfold ret. reflexivity. }
  split; [apply not_elem_of_dom, is_fresh|].
  split.
  { unfold service.get, database.get, ask.
    cbn [w_certificates set_certificates set_users set_g_user].
    rewrite lookup_insert_eq. reflexivity. }
  do 8 (split; [reflexivity|]).
  split; [intros x; cbn -[database.reconcile]; apply elem_of_reconcile|].
  split; [intros x; cbn -[database.reconcile]; apply elem_of_reconcile|].
  split.
  { unfold w2. rewrite Hw1. reflexivity. }
  unfold w2. rewrite Hw1.
  cbn [w_users set_certificates set_users set_g_user g_user
       set_generated_keys user_id].
  apply lookup_insert_eq.
Qed.

Lemma create_records_the_request_witness :
  exists (i : nat) (cert : Certificate) (w' : World),
    service.create example_options quiet_world = (Ok cert, w') /\
    w_certificates quiet_world !! i = None /\
    service.get i w' = (Ok (Some cert), w') /\
    cert_id cert = Some i /\
    cert_body cert = "BODY" /\
    cert_chain cert = Some "CHAIN" /\
    cert_private_key cert = Some example_key /\
    cert_authority cert = Some test_authority /\
    cert_user cert = Some (user_id (g_user quiet_world)) /\
    cert_owner cert = Some "ops@example.com" /\
    cert_description cert = Some "front door" /\
    (forall x, x ∈ cert_destinations cert <->
               x ∈ default [] (opt_destinations example_options)) /\
    (forall x, x ∈ cert_notifications cert <->
               x ∈ default [] (opt_notifications example_options)) /\
    certificates (g_user w') = certificates (g_user quiet_world) ++ [i] /\
    w_users w' !! user_id (g_user quiet_world) = Some (g_user w').
Proof.
  eapply (create_records_the_request quiet_world _ example_options
            test_authority test_plugin _ example_key "BODY" "CHAIN"
            "ops@example.com" "front door");
    reflexivity.
Defined.

(** ** find_duplicates *)

Lemma find_duplicates_run (body : string) (w : World) :
  service.find_duplicates body w
  = (Ok (List.filter (fun c => bool_decide (cert_body c = body))
                     (table_rows w)), w).
Proof.
  unfold service.find_duplicates, database.all_, ask, table_rows.
  do 2 f_equal.
  apply List.filter_ext. intros a. simpl. by rewrite andb_true_r.
Qed.

Lemma table_rows_elem (w : World) (c : Certificate) :
  c ∈ table_rows w <->
  exists i row, w_certificates w !! i = Some row /\ c = set_id (Some i) row.
Proof.
  unfold table_rows, database.rows_by_id.
  rewrite list_elem_of_fmap. split.
  - intros [[i row] [-> H]]. rewrite merge_sort_Permutation in H.
    apply elem_of_map_to_list in H. eauto.
  - intros (i & row & H & ->). exists (i, row). split; [done|].
    rewrite merge_sort_Permutation. by apply elem_of_map_to_list.
Qed.

Lemma find_duplicates_elem (body : string) (w : World)
    (c : Certificate) :
  c ∈ List.filter (fun c => bool_decide (cert_body c = body))
                  (table_rows w) <->
  exists i row, w_certificates w !! i = Some row /\
                cert_body row = body /\ c = set_id (Some i) row.
Proof.
  rewrite list_elem_of_In, List.filter_In, <- list_elem_of_In,
    table_rows_elem, bool_decide_eq_true.
  split.
  - intros [(i & row & H & ->) Hb]. exists i, row. by destruct row.
  - intros (i & row & H & Hb & ->). split; [eauto|]. by destruct row.
Qed.

(** X16.  [find_duplicates] returns every recorded certificate whose body
    is identical to the argument, under its id, and no certificate whose
    body differs. *)
Theorem find_duplicates_returns_exactly_equal_bodies (body : string)
    (w : World) :
  exists found,
    service.find_duplicates body w = (Ok found, w) /\
    forall c, c ∈ found <->
      exists i row, w_certificates w !! i = Some row /\
                    cert_body row = body /\ c = set_id (Some i) row.
Proof.
  eexists. split; [apply find_duplicates_run|].
  intros c. apply find_duplicates_elem.
Qed.

(** X18.  A certificate that [mint] has just returned is found by
    [find_duplicates] on its body: importing the same body again can be
    detected right after issuance. *)
Theorem find_duplicates_finds_minted (w w1 : World) (opts : Options)
    (authority : Authority) (plugin : IssuerPlugin) (csr : CsrPem)
    (key : KeyPem) (body chain : string) :
  opt_authority opts = Some authority ->
  w_plugins w !! plugin_name authority = Some plugin ->
  service.create_csr opts w = (Ok (csr, key), w1) ->
  create_certificate plugin csr
    (set_field "creator" (email (g_user w)) opts) = Ok (body, chain) ->
  exists cert w2 found,
    service.mint opts w = (Ok (cert, key, chain), w2) /\
    service.find_duplicates body w2 = (Ok found, w2) /\
    cert ∈ found.
Proof.
  intros Ha Hp Hcsr Hsign.
  eexists _, _, _. split; [by eapply mint_run|].
  split; [apply find_duplicates_run|].
  apply find_duplicates_elem.
  exists (fresh (dom (w_certificates w))),
         (minted w authority key body chain).
  split; [|split; reflexivity].
  cbn [w_certificates set_certificates]. apply lookup_insert_eq.
Qed.

Lemma find_duplicates_finds_minted_witness :
  exists cert w2 found,
    service.mint example_options quiet_world
      = (Ok (cert, example_key, "CHAIN"), w2) /\
    service.find_duplicates "BODY" w2 = (Ok found, w2) /\
    cert ∈ found.
Proof.
  eapply (find_duplicates_finds_minted quiet_world _ example_options
            test_authority test_plugin _ example_key "BODY" "CHAIN");
    reflexivity.
Defined.

(** ** update: what it leaves alone *)

(** X19.  A successful [update] writes the row of the given id and nothing
    else: every other certificate, the user table, the current user, the
    generated keys and the log are as before. *)
Theorem update_touches_one_row (w : World) (cert_id : nat)
    (c : Certificate) (owner description : string) (active : bool)
    (D N : list nat) :
  w_certificates w !! cert_id = Some c ->
  w_wiring_failure w "notifications" (Some N) = None ->
  w_wiring_failure w "destinations" (Some D) = None ->
  (forall j, j <> cert_id ->
     w_certificates
       (service.update cert_id owner description active D N w).2 !! j
     = w_certificates w !! j) /\
  w_users (service.update cert_id owner description active D N w).2
    = w_users w /\
  g_user (service.update cert_id owner description active D N w).2
    = g_user w /\
  w_generated_keys (service.update cert_id owner description active D N w).2
    = w_generated_keys w /\
  w_log (service.update cert_id owner description active D N w).2
    = w_log w.
Proof.
  intros Hc HN HD.
  rewrite (update_run _ _ _ owner description active _ _ Hc HN HD).
  cbn [snd w_certificates set_certificates w_users g_user
       w_generated_keys w_log].
  repeat split. intros j Hj. by rewrite lookup_insert_ne.
Qed.

Lemma update_touches_one_row_witness :
  (forall j, j <> 1%nat ->
     w_certificates
       (service.update 1 "sec@example.com" "rotated" false [7; 8]%nat
          [3%nat] inventory).2 !! j
     = w_certificates inventory !! j) /\
  w_users (service.update 1 "sec@example.com" "rotated" false [7; 8]%nat
             [3%nat] inventory).2 = w_users inventory /\
  g_user (service.update 1 "sec@example.com" "rotated" false [7; 8]%nat
            [3%nat] inventory).2 = g_user inventory /\
  w_generated_keys
    (service.update 1 "sec@example.com" "rotated" false [7; 8]%nat
       [3%nat] inventory).2 = w_generated_keys inventory /\
  w_log (service.update 1 "sec@example.com" "rotated" false [7; 8]%nat
           [3%nat] inventory).2 = w_log inventory.
Proof.
  apply (update_touches_one_row inventory 1
           (example_certificate "CA-A" [7%nat] [1%nat]));
    reflexivity.
Defined.



(** ** upload *)

Lemma upload_run (kwargs : service.UploadArgs) (w : World) :
  service.upload kwargs w =
    match w_wiring_failure w "destinations"
            (service.up_destinations kwargs) with
    | Some e => (Raise e, w)
    | None =>
        match w_wiring_failure w "notifications"
                (service.up_notifications kwargs) with
        | Some e => (Raise e, w)
        | None =>
            match service.up_owner kwargs with
            | None => (Raise (KeyError "owner"), w)
            | Some owner =>
                (Ok (uploaded w kwargs owner),
                 set_g_user
                   {| user_id := user_id (g_user w);
                      email := email (g_user w);
                      certificates :=
                        certificates (g_user w)
                          ++ [fresh (dom (w_certificates w))] |}
                   (set_certificates
                      (<[fresh (dom (w_certificates w))
                           := uploaded w kwargs owner]> (w_certificates w))
                      w))
            end
        end
    end.
Proof.
  unfold service.upload, models.Certificate.
  unfold bind at 1. unfold bind at 1. unfold ask at 1. unfold ret at 1.
  destruct (w_wiring_failure w "destinations"
              (service.up_destinations kwargs)) as [e|] eqn:Ed.
  { by rewrite (bind_raise _ _ _ _ _ (update_list_refused _ _ _ _ _ Ed)). }
  rewrite (bind_ok _ _ _ _ _ (update_list_destinations _ _ _ Ed)).
  destruct (w_wiring_failure w "notifications"
              (service.up_notifications kwargs)) as [e|] eqn:En.
  { by rewrite (bind_raise _ _ _ _ _ (update_list_refused _ _ _ _ _ En)). }
  rewrite (bind_ok _ _ _ _ _ (update_list_notifications _ _ _ En)).
  destruct (service.up_owner kwargs) as [owner|] eqn:Eo; [|reflexivity].
  unfold getfield. unfold bind at 1. unfold ret at 1.
  unfold database.create, database.commit, service.append_to_user, modify.
  unfold bind, ret. reflexivity.
Qed.



(** X22.  With an owner and accepted wirings, [upload] returns a
    certificate recorded under an id that was free before, holding the
    uploaded body, key and chain, the owner, no authority, and exactly the
    requested destinations and notifications.  The id is appended to the
    caller's certificates, the user table is not written, and no existing
    certificate is changed. *)
Theorem upload_records_the_certificate (kwargs : service.UploadArgs)
    (w : World) (owner : string) :
  service.up_owner kwargs = Some owner ->
  w_wiring_failure w "destinations" (service.up_destinations kwargs)
    = None ->
  w_wiring_failure w "notifications" (service.up_notifications kwargs)
    = None ->
  exists (i : nat) (cert : Certificate) (w' : World),
    service.upload kwargs w = (Ok cert, w') /\
    w_certificates w !! i = None /\
    service.get i w' = (Ok (Some cert), w') /\
    cert_body cert = service.public_cert kwargs /\
    cert_private_key cert = service.up_private_key kwargs /\
    cert_chain cert = service.intermediate_cert kwargs /\
    cert_owner cert = Some owner /\
    cert_authority cert = None /\
    (forall x, x ∈ cert_destinations cert <->
               x ∈ default [] (service.up_destinations kwargs)) /\
    (forall x, x ∈ cert_notifications cert <->
               x ∈ default [] (service.up_notifications kwargs)) /\
    certificates (g_user w') = certificates (g_user w) ++ [i] /\
    w_users w' = w_users w /\
    (forall j c, w_certificates w !! j = Some c ->
                 w_certificates w' !! j = Some c).
Proof.
  intros Ho Hd Hn.
  eexists _, _, _. split; [rewrite upload_run, Hd, Hn, Ho; reflexivity|].
  split; [apply not_elem_of_dom, is_fresh|].
  split.
  { unfold service.get, database.get, ask.
    cbn [w_certificates set_certificates set_g_user].
    rewrite lookup_insert_eq. reflexivity. }
  do 5 (split; [reflexivity|]).
  split; [intros x; apply elem_of_reconcile|].
  split; [intros x; apply elem_of_reconcile|].
  do 2 (split; [reflexivity|]).
  intros j c Hj. cbn [w_certificates set_certificates set_g_user].
  rewrite lookup_insert_ne; [done|].
  intros E. by apply (fresh_id_unused _ _ _ Hj).
Qed.

Lemma upload_records_the_certificate_witness :
  exists (i : nat) (cert : Certificate) (w' : World),
    service.upload example_upload inventory = (Ok cert, w') /\
    w_certificates inventory !! i = None /\
    service.get i w' = (Ok (Some cert), w') /\
    cert_body cert = service.public_cert example_upload /\
    cert_private_key cert = service.up_private_key example_upload /\
    cert_chain cert = service.intermediate_cert example_upload /\
    cert_owner cert = Some "ops@example.com" /\
    cert_authority cert = None /\
    (forall x, x ∈ cert_destinations cert <->
               x ∈ default [] (service.up_destinations example_upload)) /\
    (forall x, x ∈ cert_notifications cert <->
               x ∈ default [] (service.up_notifications example_upload)) /\
    certificates (g_user w') = certificates (g_user inventory) ++ [i] /\
    w_users w' = w_users inventory /\
    (forall j c, w_certificates inventory !! j = Some c ->
                 w_certificates w' !! j = Some c).
Proof.
  apply (upload_records_the_certificate example_upload inventory
           "ops@example.com");
    reflexivity.
Defined.

(** ** Exceptions with an initialiser of their own *)

(** X23.  Every construction of an exception of the module either fails
    on the number of arguments or returns an object of the class called.
    It fails only for a class whose own initialiser names its parameters,
    called with another number of arguments.  When it returns, the log has
    gained exactly one entry, the returned object, if the class is
    [LemurException], [InvalidListener] or [IssuerPaymentRequired], and is
    unchanged for every other class. *)
Theorem construct_logs_at_most_once (c : exceptions.cls)
    (args : list string) (log : exceptions.logger) :
  match exceptions.construct c args log with
  | Some (inst, log') =>
      exceptions.inst_class inst = c /\
      log' = if bool_decide (c ∈ [exceptions.LemurException;
                                  exceptions.InvalidListener;
                                  exceptions.IssuerPaymentRequired])
             then log ++ [inst] else log
  | None =>
      exists m n, exceptions.own_init c = Some m /\
                  exceptions.params m = Some n /\ length args <> n
  end.
Proof.
  destruct c; destruct args as [|a1 [|a2 [|a3 args]]]; cbn;
    first [ by split
          | eexists _, _; split; [reflexivity|]; split; [reflexivity|];
            cbn; lia ].
Qed.

(** ** stats: the expiry window *)

Lemma bump_sum (k : PyVal) (n : nat) (g : list (PyVal * nat)) :
  sum_list (database.bump k n g).*2 = n + sum_list g.*2.
Proof.
  induction g as [|[k' m] g IH]; csimpl; [lia|].
  destruct (decide (k = k')); csimpl; [lia | rewrite IH; lia].
Qed.

Lemma bump_keys (k : PyVal) (n : nat) (g : list (PyVal * nat))
    (x : PyVal) :
  x ∈ (database.bump k n g).*1 <-> x = k \/ x ∈ g.*1.
Proof.
  induction g as [|[k' m] g IH]; csimpl.
  - rewrite list_elem_of_singleton, elem_of_nil. tauto.
  - destruct (decide (k = k')) as [->|]; csimpl;
      rewrite !elem_of_cons; [tauto | rewrite IH; tauto].
Qed.

Lemma group_fold_sum (key counted : Certificate -> PyVal)
    (rows : list Certificate) (acc : list (PyVal * nat)) :
  (forall row, row ∈ rows -> counted row <> VNone) ->
  sum_list (foldl (fun groups row =>
                     database.bump (key row)
                       (if decide (counted row = VNone) then 0 else 1)
                       groups) acc rows).*2
  = sum_list acc.*2 + length rows.
Proof.
  revert acc. induction rows as [|row rows IH]; intros acc Hc; simpl; [lia|].
  rewrite IH by (intros r Hr; apply Hc; by right).
  rewrite bump_sum.
  destruct (decide (counted row = VNone)) as [E|_]; [|lia].
  exfalso. apply (Hc row); [by left | done].
Qed.

Lemma group_fold_keys (key counted : Certificate -> PyVal)
    (rows : list Certificate) (acc : list (PyVal * nat)) (x : PyVal) :
  x ∈ (foldl (fun groups row =>
                database.bump (key row)
                  (if decide (counted row = VNone) then 0 else 1)
                  groups) acc rows).*1
  <-> x ∈ acc.*1 \/ exists row, row ∈ rows /\ x = key row.
Proof.
  revert acc. induction rows as [|row rows IH]; intros acc; simpl.
  - split; [by left | intros [H | (row & Hr & _)]; [done|]].
    by apply elem_of_nil in Hr.
  - rewrite IH, bump_keys. split.
    + intros [[-> | H] | (r & Hr & ->)].
      * right. exists row. split; [by left | done].
      * by left.
      * right. exists r. split; [by right | done].
    + intros [H | (r & Hr & ->)]; [by left; right|].
      apply elem_of_cons in Hr as [-> | Hr]; [by left; left|].
      right. by exists r.
Qed.

Lemma bump_NoDup (k : PyVal) (n : nat) (g : list (PyVal * nat)) :
  NoDup g.*1 -> NoDup (database.bump k n g).*1.
Proof.
  induction g as [|[k' m] g IH]; csimpl; intros Hnd.
  - apply NoDup_singleton.
  - apply NoDup_cons in Hnd as [Hk Hg].
    destruct (decide (k = k')) as [->|Hne]; csimpl; apply NoDup_cons.
    + by split.
    + split; [|by apply IH].
      rewrite bump_keys. intros [E | Hin]; [by apply Hne | by apply Hk].
Qed.

Lemma group_fold_NoDup (key counted : Certificate -> PyVal)
    (rows : list Certificate) (acc : list (PyVal * nat)) :
  NoDup acc.*1 ->
  NoDup (foldl (fun groups row =>
                  database.bump (key row)
                    (if decide (counted row = VNone) then 0 else 1)
                    groups) acc rows).*1.
Proof.
  revert acc. induction rows as [|row rows IH]; intros acc Hnd; simpl;
    [done|].
  apply IH. by apply bump_NoDup.
Qed.

Lemma group_count_run (key counted : Certificate -> PyVal)
    (query : database.RowQuery) (w : World) :
  database.group_count key counted query w
  = (Ok (foldl (fun groups row =>
                  database.bump (key row)
                    (if decide (counted row = VNone) then 0 else 1)
                    groups) []
           (List.filter
              (fun row => forallb (fun p : Certificate -> bool => p row)
                                  query)
              (table_rows w))), w).
Proof. reflexivity. Qed.

Lemma replace_weeks_run (today n : Z) (w : World) :
  date_exists (today + 7 * n) = true ->
  service.replace_weeks today (VInt n) w = (Ok (today + 7 * n)%Z, w).
Proof.
  intros Hday. unfold service.replace_weeks, service.weeks, bind, ret.
  by rewrite Hday.
Qed.

(** X24.  For the metric ['not_after'], while the day 32 weeks from today
    is one that [datetime] can hold, [stats] returns as labels, each once,
    exactly the issuers that have a recorded certificate expiring between
    the start of today and the start of the day 32 weeks from today, both
    instants included; a certificate expiring later on that last day is
    left out.  There are as many values as labels, and the values add up
    to the number of recorded certificates expiring in that window. *)
Theorem stats_not_after_counts_the_window (kwargs : gmap string PyVal)
    (w : World) :
  kwargs !! "metric" = Some (VStr "not_after") ->
  date_exists (w_today w + 7 * 32) = true ->
  exists st,
    service.stats kwargs w = (Ok st, w) /\
    length (service.labels st) = length (service.values st) /\
    NoDup (service.labels st) /\
    sum_list (service.values st)
      = length (List.filter (expiring w) (table_rows w)) /\
    (forall issuer, VStr issuer ∈ service.labels st <->
       exists i c, w_certificates w !! i = Some c /\
                   expiring w c = true /\ cert_issuer c = issuer) /\
    (forall c, (midnight (w_today w + 7 * 32) < cert_not_after c)%Z ->
               expiring w c = false).
Proof.
  intros Hm Hday. unfold service.stats. cbv zeta. rewrite Hm.
  destruct (decide (_ = VStr "not_after")) as [_|N]; [|done].
  unfold bind at 1. unfold bind at 1. unfold ask at 1. cbv beta iota.
  rewrite (bind_ok _ _ _ _ _ (replace_weeks_run _ _ _ Hday)).
  rewrite group_count_run. unfold ret.
  eexists. split; [reflexivity|].
  cbn [service.labels service.values].
  split; [by rewrite !length_fmap|].
  split; [apply group_fold_NoDup, NoDup_nil_2|].
  assert (Hf : forall l : list Certificate,
    List.filter (fun row => forallb (fun p : Certificate -> bool => p row)
       [fun c => (cert_not_after c <=? midnight (w_today w + 7 * 32))%Z;
        fun c => (midnight (w_today w) <=? cert_not_after c)%Z]) l
    = List.filter (expiring w) l).
  { intros l. apply List.filter_ext. intros c. unfold expiring. simpl.
    by rewrite andb_true_r. }
  rewrite Hf. split; [|split].
  - rewrite group_fold_sum; [simpl; lia|].
    intros row Hr. rewrite list_elem_of_In, List.filter_In in Hr.
    destruct Hr as [Hr _]. rewrite <- list_elem_of_In in Hr.
    apply table_rows_elem in Hr as (i & c & _ & ->). by destruct c.
  - intros issuer. rewrite group_fold_keys. split.
    + intros [H | (row & Hr & E)]; [by apply elem_of_nil in H|].
      rewrite list_elem_of_In, List.filter_In in Hr.
      destruct Hr as [Hr Hx]. rewrite <- list_elem_of_In in Hr.
      apply table_rows_elem in Hr as (i & c & Hc & ->).
      exists i, c. destruct c. split; [done|]. split; [exact Hx|].
      by injection E.
    + intros (i & c & Hc & Hx & <-). right.
      exists (set_id (Some i) c). split; [|by destruct c].
      rewrite list_elem_of_In, List.filter_In, <- list_elem_of_In.
      split; [apply table_rows_elem; eauto | by destruct c].
  - intros c Hlate. unfold expiring.
    apply andb_false_intro1. by apply Z.leb_gt.
Qed.

Lemma stats_not_after_counts_the_window_witness :
  exists st,
    service.stats (stats_kwargs "not_after") inventory = (Ok st, inventory) /\
    length (service.labels st) = length (service.values st) /\
    NoDup (service.labels st) /\
    sum_list (service.values st)
      = length (List.filter (expiring inventory) (table_rows inventory)) /\
    (forall issuer, VStr issuer ∈ service.labels st <->
       exists i c, w_certificates inventory !! i = Some c /\
                   expiring inventory c = true /\ cert_issuer c = issuer) /\
    (forall c,
       (midnight (w_today inventory + 7 * 32) < cert_not_after c)%Z ->
       expiring inventory c = false).
Proof.
  apply (stats_not_after_counts_the_window (stats_kwargs "not_after")
           inventory);
    reflexivity.
Defined.
